(** * Astreus Resend plugin: gateway client and tool adapter

    A shallow embedding of [src/client.ts] (the gateway client
    [ResendClient]) and of the plugin class [ResendPlugin], with the
    properties of the request mapping, of the error normalisation and of
    the tool registry stated and proved over it. *)

From Stdlib Require Import ZArith String Ascii.
From stdpp Require Import base option list gmap strings pretty.

Local Open Scope string_scope.
Local Open Scope list_scope.
Local Open Scope Z_scope.

Set Warnings "-register-all".

(** ** JavaScript values

    Numbers are the integers and NaN (the code never computes with a number,
    it only tests one for truthiness); functions and symbols do not occur.
    The fields of a [VObject] are listed in the order in which
    [Object.entries] enumerates them. *)

Inductive value : Type :=
| VUndefined
| VNull
| VBool (b : bool)
| VNumber (n : Z)
| VNaN
| VString (s : string)
| VArray (items : list value)
| VObject (fields : list (string * value)).

(** The objects the code reads by fixed keys or builds by a literal (options,
    configuration, payload) are finite maps; a key bound to [VUndefined] is
    present, which is what the spread in the constructor observes. *)
Abbreviation obj := (gmap string value).

(** [!!v] is [truthy v]. *)
Definition truthy (v : value) : bool :=
  match v with
  | VUndefined | VNull | VNaN => false
  | VBool b => b
  | VNumber n => negb (n =? 0)
  | VString s => negb (String.eqb s "")
  | VArray _ | VObject _ => true
  end.

(** [a || b] *)
Definition js_or (a b : value) : value := if truthy a then a else b.

Definition nullish (v : value) : bool :=
  match v with VUndefined | VNull => true | _ => false end.

(** [o.k] on an options, configuration or parameter object. *)
Definition get (o : obj) (k : string) : value := default VUndefined (o !! k).

Fixpoint assoc (k : string) (l : list (string * value)) : option value :=
  match l with
  | [] => None
  | (k', v) :: l' => if String.eqb k k' then Some v else assoc k l'
  end.

(** [v.k] on a value that is not null or undefined, for the keys the code
    reads ("data", "id", "properties", "required", "type", "description"),
    none of which a built-in prototype defines. *)
Definition member (v : value) (k : string) : value :=
  match v with
  | VObject l => default VUndefined (assoc k l)
  | _ => VUndefined
  end.

(** ** Thrown values, the log and the outbound calls *)

(** What a [throw] carries: an instance of [Error] (its constructor name
    and message; the name is "Error" for a plain [new Error(..)]), or
    anything else. *)
Inductive thrown : Type :=
| Err (name message : string)
| NonErr (v : value).

Inductive LogLevel := LWarn | LError | LInfo | LSuccess.

Record LogEntry := { level : LogLevel; text : string; detail : option thrown }.

(** The SDK object built by [new Resend(key)]. *)
Record Resend := { key : value }.

(** The effects of the program: the requests handed to the provider, oldest
    first, and the lines given to the logger. *)
Record World := { net : list (Resend * obj); log : list LogEntry }.

(** The result of running a method to its end: a value, a thrown value (a
    rejected promise for an async method), or a promise that never settles
    because the provider's never did. *)
Inductive Res (A : Type) : Type :=
| Ok (a : A)
| Throw (e : thrown)
| Pending.
Arguments Ok {A} a.
Arguments Throw {A} e.
Arguments Pending {A}.

(** Methods are state transformers with a result; the state is kept when
    the method throws. The gateway client runs over [World], the plugin over
    its own fields and the world. *)
Definition Eff (S A : Type) : Type := S -> Res A * S.

Abbreviation M := (Eff World).

Definition ret {S A} (a : A) : Eff S A := fun s => (Ok a, s).

Definition bind {S A B} (m : Eff S A) (k : A -> Eff S B) : Eff S B :=
  fun s =>
    match m s with
    | (Ok a, s') => k a s'
    | (Throw e, s') => (Throw e, s')
    | (Pending, s') => (Pending, s')
    end.

Definition throw {S A} (e : thrown) : Eff S A := fun s => (Throw e, s).

(** [try { body } catch (error) { handler }] *)
Definition try_catch {S A} (body : Eff S A) (handler : thrown -> Eff S A) : Eff S A :=
  fun s =>
    match body s with
    | (Throw e, s') => handler e s'
    | r => r
    end.

Notation "x <- m ;; k" := (bind m (fun x => k))
  (at level 100, m at next level, right associativity).
Notation "m ;; k" := (bind m (fun _ => k))
  (at level 100, right associativity).

(** [if (c) throw e;] *)
Definition throw_if {S} (c : bool) (e : thrown) : Eff S unit :=
  if c then throw e else ret tt.

Definition logger (lv : LogLevel) (s : string) (d : option thrown) : M unit :=
  fun w => (Ok tt, {| net := net w; log := log w ++ [{| level := lv; text := s; detail := d |}] |}).

(** [v.k], a TypeError when [v] is null or undefined. *)
Definition read {S} (v : value) (k : string) : Eff S value :=
  if nullish v
  then throw (Err "TypeError" ("Cannot read properties of " +:+
                (if v is VNull then "null" else "undefined") +:+ " (reading '" +:+ k +:+ "')"))
  else ret (member v k).

(** [v?.k] *)
Definition read_opt {S} (v : value) (k : string) : Eff S value :=
  if nullish v then ret VUndefined else ret (member v k).

(** ** The provider's SDK and the host

    The package [resend] is not part of the repository: what its constructor
    and its [emails.send] do is a parameter, and so are the conversion
    [String(v)] of a value to a string and the [name] property that an error
    of a class of the SDK has ("Error" when the class sets none). *)

Inductive settle : Type :=
| Resolves (v : value)
| Rejects (e : thrown)
| NeverSettles.

Record Provider := {
  Resend_new : value -> option thrown;
  emails_send : Resend -> obj -> settle;
  js_String : value -> string;
  Error_name : string -> string
}.

Record EmailResponse := { id : value; success : bool }.

Record ResendClient := { client : Resend; config : obj }.

Definition not_configured_msg : string :=
  "Resend API key not configured. Please set RESEND_API_KEY in your environment or pass it in the constructor.".
Definition no_content_msg : string :=
  "Either html or text content must be provided for the email.".
Definition no_response_msg : string :=
  "Failed to send email: No response from Resend API".
Definition no_template_msg : string :=
  "Template ID must be provided for template emails.".
Definition no_template_response_msg : string :=
  "Failed to send template email: No response from Resend API".
Definition not_initialized_msg : string :=
  "Resend client not initialized. Call init() first.".

Section Gateway.

Variable P : Provider.

(** [new Resend(key)] *)
Definition new_Resend (k : value) : M Resend :=
  match Resend_new P k with
  | Some e => throw e
  | None => ret {| key := k |}
  end.

(** [await this.client.emails.send(payload)]: the request is recorded, then
    the promise settles as the provider decides. *)
Definition send (r : Resend) (payload : obj) : M value :=
  fun w =>
    let w' := {| net := net w ++ [(r, payload)]; log := log w |} in
    match emails_send P r payload with
    | Resolves v => (Ok v, w')
    | Rejects e => (Throw e, w')
    | NeverSettles => (Pending, w')
    end.

(** The defaults of the constructor, overridden by every key of [config]. *)
Definition default_config : obj :=
  {[ "defaultFrom" := VString "onboarding@resend.dev";
     "requestTimeout" := VNumber 10000 ]}.

(** [constructor(config)] of [ResendClient]. *)
Definition new_ResendClient (cfg : obj) : M ResendClient :=
  let config := cfg ∪ default_config in
  (if negb (truthy (get config "apiKey"))
   then logger LWarn "Resend API key not provided. Email functionality will not work." None
   else ret tt) ;;
  r <- new_Resend (get config "apiKey") ;;
  ret {| client := r; config := config |}.

Definition isConfigured (c : ResendClient) : M bool :=
  ret (truthy (get (config c) "apiKey")).

Definition formatEmailOptions (c : ResendClient) (options : obj) : obj :=
  list_to_map
    [ ("from", js_or (get options "from") (get (config c) "defaultFrom"));
      ("to", get options "to");
      ("subject", get options "subject");
      ("html", get options "html");
      ("text", get options "text");
      ("reply_to", js_or (get options "replyTo") (get (config c) "defaultReplyTo"));
      ("cc", get options "cc");
      ("bcc", get options "bcc");
      ("attachments", get options "attachments");
      ("tags", get options "tags") ].

(** [error instanceof Error ? error.message : 'Unknown error'] *)
Definition message_or_unknown (error : thrown) : string :=
  match error with
  | Err _ m => m
  | NonErr _ => "Unknown error"
  end.

(** The test [!response || !response.data?.id]. *)
Definition no_usable_id (response : value) : M bool :=
  if negb (truthy response) then ret true
  else data <- read response "data" ;;
       i <- read_opt data "id" ;;
       ret (negb (truthy i)).

(** [response.data.id] *)
Definition response_id (response : value) : M value :=
  data <- read response "data" ;; read data "id".

Definition sendEmail (c : ResendClient) (options : obj) : M EmailResponse :=
  try_catch
    (configured <- isConfigured c ;;
     throw_if (negb configured) (Err "Error" not_configured_msg) ;;
     throw_if (negb (truthy (get options "html")) && negb (truthy (get options "text")))
              (Err "Error" no_content_msg) ;;
     let formattedOptions := formatEmailOptions c options in
     response <- send (client c) formattedOptions ;;
     bad <- no_usable_id response ;;
     throw_if bad (Err "Error" no_response_msg) ;;
     i <- response_id response ;;
     ret {| id := i; success := true |})
    (fun error =>
       let errorMessage := message_or_unknown error in
       logger LError ("Failed to send email: " +:+ errorMessage) None ;;
       throw (Err "Error" ("Failed to send email: " +:+ errorMessage))).

Definition sendTemplateEmail (c : ResendClient) (options : obj) : M EmailResponse :=
  try_catch
    (configured <- isConfigured c ;;
     throw_if (negb configured) (Err "Error" not_configured_msg) ;;
     throw_if (negb (truthy (get options "templateId"))) (Err "Error" no_template_msg) ;;
     let formattedOptions : obj :=
       list_to_map
         [ ("from", js_or (get options "from") (get (config c) "defaultFrom"));
           ("to", get options "to");
           ("reply_to", js_or (get options "replyTo") (get (config c) "defaultReplyTo"));
           ("cc", get options "cc");
           ("bcc", get options "bcc");
           ("tags", get options "tags");
           ("template", get options "templateId");
           ("data", get options "templateData") ] in
     response <- send (client c) formattedOptions ;;
     bad <- no_usable_id response ;;
     throw_if bad (Err "Error" no_template_response_msg) ;;
     i <- response_id response ;;
     ret {| id := i; success := true |})
    (fun error =>
       let errorMessage := message_or_unknown error in
       logger LError ("Failed to send template email: " +:+ errorMessage) None ;;
       throw (Err "Error" ("Failed to send template email: " +:+ errorMessage))).

End Gateway.

(** ** The tool adapter *)

Record ToolParameterSchema := {
  param_name : string;
  param_type : string;
  param_description : value;
  param_required : value
}.

(** The [execute] closure of a tool: the one [initializeTools] builds for a
    manifest (it captures the manifest and the plugin), or a function of the
    host's, handed over with a tool given to [registerTool]. *)
Inductive Executor : Type :=
| ManifestExecute (manifest_name : string)
| HostExecute (tag : nat).

Record Plugin := {
  name : string;
  description : string;
  parameters : list ToolParameterSchema;
  execute : Executor
}.

Record Manifest := {
  manifest_name : string;
  manifest_description : string;
  manifest_parameters : value
}.

(** The fields of [ResendPlugin]; [config_tools] is [this.config.tools], and
    [tools] is the [Map], its entries in insertion order. *)
Record ResendPlugin := {
  pclient : option ResendClient;
  resendConfig : obj;
  tools : list (string * Plugin);
  config_tools : list Plugin
}.

Abbreviation PM := (Eff (ResendPlugin * World)).

(** A gateway or logger call made from a method of the plugin. *)
Definition liftW {A} (m : M A) : PM A :=
  fun s => let (r, w') := m (snd s) in (r, (fst s, w')).

Definition this : PM ResendPlugin := fun s => (Ok (fst s), s).

Definition assign (f : ResendPlugin -> ResendPlugin) : PM unit :=
  fun s => (Ok tt, (f (fst s), snd s)).

(** [Map.prototype.set], [delete], [has] and [values] on the entries in
    insertion order: setting a key that is there keeps its place. *)
Fixpoint Map_set {V} (k : string) (v : V) (m : list (string * V)) : list (string * V) :=
  match m with
  | [] => [(k, v)]
  | (k', v') :: m' => if String.eqb k k' then (k, v) :: m' else (k', v') :: Map_set k v m'
  end.

Fixpoint Map_delete {V} (k : string) (m : list (string * V)) : list (string * V) :=
  match m with
  | [] => []
  | (k', v') :: m' => if String.eqb k k' then m' else (k', v') :: Map_delete k m'
  end.

Definition Map_has {V} (k : string) (m : list (string * V)) : bool :=
  existsb (fun e => String.eqb k (fst e)) m.

Definition Map_get {V} (k : string) (m : list (string * V)) : option V :=
  snd <$> List.find (fun e => String.eqb k (fst e)) m.

Definition Map_values {V} (m : list (string * V)) : list V := map snd m.

Definition Map_keys {V} (m : list (string * V)) : list string := map fst m.

(** [s.includes(pat)] on strings. *)
Fixpoint String_includes (pat s : string) : bool :=
  String.prefix pat s ||
  match s with
  | EmptyString => false
  | String _ s' => String_includes pat s'
  end.

(** [s.replace(pat, rep)] with a string pattern: the first occurrence. *)
Fixpoint String_replace (pat rep s : string) : string :=
  if String.prefix pat s
  then rep +:+ String.substring (String.length pat) (String.length s - String.length pat) s
  else match s with
       | EmptyString => EmptyString
       | String c s' => String c (String_replace pat rep s')
       end.

(** [Object.entries(v)] for a value that is not null or undefined. *)
Definition Object_entries (v : value) : list (string * value) :=
  match v with
  | VObject l => l
  | VArray l => imap (fun i x => (pretty i, x)) l
  | VString s => imap (fun i c => (pretty i, VString (String c EmptyString))) (list_ascii_of_string s)
  | _ => []
  end.

(** [recv.includes(name)] for [recv] not null or undefined: the array and the
    string method; anything else has no such method. *)
Definition includes {S} (recv : value) (x : string) : Eff S value :=
  match recv with
  | VArray l => ret (VBool (existsb (fun v => if v is VString s then String.eqb s x else false) l))
  | VString s => ret (VBool (String_includes x s))
  | _ => throw (Err "TypeError" "params.required?.includes is not a function")
  end.

Definition allowed_types : list string :=
  ["string"; "number"; "boolean"; "object"; "array"].

(** [[..].includes(type) ? type : "string"] *)
Definition validType (type : value) : string :=
  match type with
  | VString s => if existsb (String.eqb s) allowed_types then s else "string"
  | _ => "string"
  end.

(** The body of the loop of [convertParameters], over the entries left. *)
Fixpoint convertParameters_loop {S} (params : value) (entries : list (string * value))
    (result : list ToolParameterSchema) : Eff S (list ToolParameterSchema) :=
  match entries with
  | [] => ret result
  | (name, prop) :: rest =>
      type <- read prop "type" ;;
      description <- read prop "description" ;;
      required <- read params "required" ;;
      included <- (if nullish required then ret VUndefined else includes required name) ;;
      convertParameters_loop params rest
        (result ++ [ {| param_name := name;
                        param_type := validType type;
                        param_description := js_or description (VString "");
                        param_required := js_or included (VBool false) |} ])
  end.

Definition convertParameters {S} (params : value) : Eff S (list ToolParameterSchema) :=
  if truthy params && truthy (member params "properties")
  then convertParameters_loop params (Object_entries (member params "properties")) []
  else ret [].

Definition string_property (n d : string) : string * value :=
  (n, VObject [("type", VString "string"); ("description", VString d)]).

Definition getManifests : list Manifest :=
  [ {| manifest_name := "resend_send_email";
       manifest_description := "Send an email using Resend";
       manifest_parameters :=
         VObject
           [ ("type", VString "object");
             ("properties",
              VObject
                [ string_property "to" "Recipient email address or comma-separated list of addresses";
                  string_property "subject" "Email subject line";
                  string_property "html" "HTML content of the email";
                  string_property "text" "Plain text content of the email";
                  string_property "from" "Sender email address (overrides default)";
                  string_property "replyTo" "Reply-to email address (overrides default)";
                  string_property "cc" "CC email address or comma-separated list of addresses";
                  string_property "bcc" "BCC email address or comma-separated list of addresses" ]);
             ("required", VArray [VString "to"; VString "subject"]) ] |};
    {| manifest_name := "resend_send_template_email";
       manifest_description := "Send an email using a Resend template";
       manifest_parameters :=
         VObject
           [ ("type", VString "object");
             ("properties",
              VObject
                [ string_property "to" "Recipient email address or comma-separated list of addresses";
                  string_property "templateId" "ID of the email template to use";
                  ("templateData",
                   VObject [("type", VString "object");
                            ("description", VString "Data to populate the template with")]);
                  string_property "from" "Sender email address (overrides default)";
                  string_property "replyTo" "Reply-to email address (overrides default)";
                  string_property "cc" "CC email address or comma-separated list of addresses";
                  string_property "bcc" "BCC email address or comma-separated list of addresses" ]);
             ("required", VArray [VString "to"; VString "templateId"; VString "templateData"]) ] |} ].

(** [this.config.tools = Array.from(this.tools.values())] *)
Definition resync : PM unit :=
  assign (fun p => {| pclient := pclient p; resendConfig := resendConfig p;
                      tools := tools p; config_tools := Map_values (tools p) |}).

Definition tools_set (k : string) (t : Plugin) : PM unit :=
  assign (fun p => {| pclient := pclient p; resendConfig := resendConfig p;
                      tools := Map_set k t (tools p); config_tools := config_tools p |}).

Definition tools_delete (k : string) : PM bool :=
  p <- this ;;
  assign (fun p => {| pclient := pclient p; resendConfig := resendConfig p;
                      tools := Map_delete k (tools p); config_tools := config_tools p |}) ;;
  ret (Map_has k (tools p)).

Definition set_client (c : ResendClient) : PM unit :=
  assign (fun p => {| pclient := Some c; resendConfig := resendConfig p;
                      tools := tools p; config_tools := config_tools p |}).

Fixpoint initializeTools_loop (manifests : list Manifest) : PM unit :=
  match manifests with
  | [] => ret tt
  | manifest :: rest =>
      ps <- convertParameters (manifest_parameters manifest) ;;
      let plugin := {| name := manifest_name manifest;
                       description := manifest_description manifest;
                       parameters := ps;
                       execute := ManifestExecute (manifest_name manifest) |} in
      tools_set (manifest_name manifest) plugin ;;
      initializeTools_loop rest
  end.

Definition initializeTools : PM unit :=
  initializeTools_loop getManifests ;; resync.

Definition logToolsSummary : PM unit :=
  p <- this ;;
  let toolNames := Map_keys (tools p) in
  liftW (logger LInfo ("Resend plugin registered " +:+ pretty (length toolNames) +:+ " tools: "
                         +:+ String.concat ", " toolNames) None).

Definition getTools : PM (list Plugin) := p <- this ;; ret (Map_values (tools p)).

Definition getTool (n : string) : PM (option Plugin) := p <- this ;; ret (Map_get n (tools p)).

Definition registerTool (tool : Plugin) : PM unit :=
  tools_set (name tool) tool ;; resync.

Definition removeTool (n : string) : PM bool :=
  result <- tools_delete n ;; resync ;; ret result.

Section Adapter.

Variable P : Provider.

(** [error.name] of an instance of the class [cls]: a built-in class has its
    own name, a class of the SDK the name the SDK gives it. *)
Definition name_of (cls : string) : string :=
  if String.eqb cls "Error" || String.eqb cls "TypeError" then cls else Error_name P cls.

(** [String(error)], as the template literals apply it to a caught value:
    for an [Error], its [name] and its [message]. *)
Definition String_of (error : thrown) : string :=
  match error with
  | Err cls m =>
      let n := name_of cls in
      if String.eqb n "" then m else if String.eqb m "" then n else n +:+ ": " +:+ m
  | NonErr v => js_String P v
  end.

(** [constructor(config?)]; [env] is [process.env]. *)
Definition new_ResendPlugin (env : obj) (config : option obj) : PM unit :=
  let resendConfig0 : obj :=
    match config with
    | Some c => c
    | None => list_to_map [ ("apiKey", get env "RESEND_API_KEY");
                            ("defaultFrom", get env "RESEND_DEFAULT_FROM");
                            ("defaultReplyTo", get env "RESEND_DEFAULT_REPLY_TO") ]
    end in
  assign (fun _ => {| pclient := None; resendConfig := resendConfig0;
                      tools := []; config_tools := [] |}) ;;
  initializeTools.

Definition init : PM unit :=
  try_catch
    (p <- this ;;
     c <- liftW (new_ResendClient P (resendConfig p)) ;;
     set_client c ;;
     configured <- liftW (isConfigured c) ;;
     throw_if (negb configured)
       (Err "Error" "Resend client is not properly configured. Check your API key.") ;;
     initializeTools ;;
     logToolsSummary ;;
     liftW (logger LSuccess "Resend email plugin initialized successfully" None))
    (fun error =>
       liftW (logger LError "Failed to initialize Resend plugin:" (Some error)) ;;
       throw (Err "Error" ("Resend plugin initialization failed: " +:+ String_of error))).

(** [error instanceof Error ? error.message : String(error)] *)
Definition message_or_String (error : thrown) : string :=
  match error with
  | Err _ m => m
  | NonErr _ => String_of error
  end.

(** [sendEmail(params)] of the plugin. *)
Definition plugin_sendEmail (params : obj) : PM EmailResponse :=
  p <- this ;;
  match pclient p with
  | None => throw (Err "Error" not_initialized_msg)
  | Some c =>
      let options : obj :=
        list_to_map [ ("to", get params "to"); ("subject", get params "subject");
                      ("html", get params "html"); ("text", get params "text");
                      ("from", get params "from"); ("replyTo", get params "replyTo");
                      ("cc", get params "cc"); ("bcc", get params "bcc") ] in
      try_catch (liftW (sendEmail P c options))
        (fun error =>
           let errorMessage := message_or_String error in
           liftW (logger LError ("Failed to send email: " +:+ errorMessage) None) ;;
           throw (Err "Error" ("Failed to send email: " +:+ errorMessage)))
  end.

(** [sendTemplateEmail(params)] of the plugin. *)
Definition plugin_sendTemplateEmail (params : obj) : PM EmailResponse :=
  p <- this ;;
  match pclient p with
  | None => throw (Err "Error" not_initialized_msg)
  | Some c =>
      let options : obj :=
        list_to_map [ ("to", get params "to"); ("templateId", get params "templateId");
                      ("templateData", js_or (get params "templateData") (VObject []));
                      ("from", get params "from"); ("replyTo", get params "replyTo");
                      ("cc", get params "cc"); ("bcc", get params "bcc") ] in
      try_catch (liftW (sendTemplateEmail P c options))
        (fun error =>
           let errorMessage := message_or_String error in
           liftW (logger LError ("Failed to send template email: " +:+ errorMessage) None) ;;
           throw (Err "Error" ("Failed to send template email: " +:+ errorMessage)))
  end.

(** The [execute] closure that [initializeTools] builds for [manifest]. The
    result of either method is a freshly built [{id, success}], never the
    object [params] itself, so the copy made when [result === params] is
    never taken. *)
Definition execute_manifest (manifest : string) (params : obj) : PM EmailResponse :=
  p <- this ;;
  throw_if (if pclient p is None then true else false) (Err "Error" not_initialized_msg) ;;
  let methodName := String_replace "resend_" "" manifest in
  try_catch
    (if String.eqb methodName "send_email" then plugin_sendEmail params
     else if String.eqb methodName "send_template_email" then plugin_sendTemplateEmail params
     else throw (Err "Error" ("Unknown method: " +:+ methodName)))
    (fun error =>
       liftW (logger LError ("Error executing tool " +:+ manifest +:+ ":") (Some error)) ;;
       match error with
       | Err _ _ => throw error
       | NonErr _ => throw (Err "Error" ("Error executing " +:+ methodName +:+ ": " +:+ String_of error))
       end).

End Adapter.

(** ** The life cycle of the adapter *)

(** What a host can do with a plugin once it is constructed. *)
Inductive Op : Type :=
| CallInit
| CallExecute (manifest : string) (params : obj)
| CallSendEmail (params : obj)
| CallSendTemplateEmail (params : obj)
| CallRegisterTool (tool : Plugin)
| CallRemoveTool (n : string)
| CallGetTools.

Definition run (P : Provider) (o : Op) (s : ResendPlugin * World) : ResendPlugin * World :=
  match o with
  | CallInit => snd (init P s)
  | CallExecute m params => snd (execute_manifest P m params s)
  | CallSendEmail params => snd (plugin_sendEmail P params s)
  | CallSendTemplateEmail params => snd (plugin_sendTemplateEmail P params s)
  | CallRegisterTool t => snd (registerTool t s)
  | CallRemoveTool n => snd (removeTool n s)
  | CallGetTools => snd (getTools s)
  end.

(** The states of a plugin built by the constructor and then used. *)
Inductive reachable (P : Provider) : ResendPlugin * World -> Prop :=
| reach_new env config s0 :
    reachable P (snd (new_ResendPlugin env config s0))
| reach_run o s :
    reachable P s -> reachable P (run P o s).

(** Initialized: the client is there and is configured. *)
Definition Initialized (p : ResendPlugin) : Prop :=
  exists c, pclient p = Some c /\ truthy (get (config c) "apiKey") = true.

(** ** Notions of the statements and sample inputs *)

(** The world after [logger.error(s)]. *)
Definition log_error (s : string) (w : World) : World :=
  {| net := net w; log := log w ++ [{| level := LError; text := s; detail := None |}] |}.

(** The provider's answer carries an identifier. *)
Definition usable (response : value) : bool :=
  truthy response && truthy (member (member response "data") "id").

(** The world after one request to the provider. *)
Definition sent (r : Resend) (payload : obj) (w : World) : World :=
  {| net := net w ++ [(r, payload)]; log := log w |}.

(** What [catch] makes of a thrown value in [sendEmail]. *)
Definition send_failure (prefix : string) (e : thrown) (w : World) : Res EmailResponse * World :=
  (Throw (Err "Error" (prefix +:+ message_or_unknown e)),
   log_error (prefix +:+ message_or_unknown e) w).

(** The payload literal of [sendTemplateEmail]. *)
Definition template_payload (c : ResendClient) (options : obj) : obj :=
  list_to_map
    [ ("from", js_or (get options "from") (get (config c) "defaultFrom"));
      ("to", get options "to");
      ("reply_to", js_or (get options "replyTo") (get (config c) "defaultReplyTo"));
      ("cc", get options "cc");
      ("bcc", get options "bcc");
      ("tags", get options "tags");
      ("template", get options "templateId");
      ("data", get options "templateData") ].

(** [apiKey?: string]: the key is absent, undefined or a string. *)
Definition credential_typed (cfg : obj) : Prop :=
  cfg !! "apiKey" = None \/ cfg !! "apiKey" = Some VUndefined \/
  exists s, cfg !! "apiKey" = Some (VString s).

(** The configuration holds a non-empty credential. *)
Definition has_credential (cfg : obj) : Prop :=
  exists s, cfg !! "apiKey" = Some (VString s) /\ s <> "".

(** A provider that accepts every key and answers every request with the
    identifier "abc123". *)
Definition provider_ok : Provider :=
  {| Resend_new := fun _ => None;
     emails_send := fun _ _ => Resolves (VObject [("data", VObject [("id", VString "abc123")])]);
     js_String := fun _ => "[value]";
     Error_name := fun _ => "Error" |}.

(** Nothing sent, nothing logged. *)
Definition world0 : World := {| net := []; log := [] |}.

(** The client that [new ResendClient(cfg)] returns when the SDK accepts the key. *)
Definition gateway_of (cfg : obj) : ResendClient :=
  {| client := {| key := get cfg "apiKey" |}; config := cfg ∪ default_config |}.

(** A configuration with a credential and nothing else. *)
Definition keyed_cfg : obj := {[ "apiKey" := VString "re_123" ]}.

(** Scenario 1 of the specification. *)
Definition hello_call : obj :=
  {[ "to" := VString "a@b.com"; "subject" := VString "Hi"; "html" := VString "<p>hi</p>" ]}.

(** A call that gives [from] as the empty string. *)
Definition empty_from_call : obj := <["from" := VString ""]> hello_call.

(** Scenario 2 of the specification: [{to, subject}] and nothing else. *)
Definition bare_call : obj := {[ "to" := VString "a@b.com"; "subject" := VString "Hi" ]}.

(** A provider whose request fails with an error of its own class. *)
Definition provider_rate_limited : Provider :=
  {| Resend_new := fun _ => None;
     emails_send := fun _ _ => Rejects (Err "ResendError" "rate limit exceeded");
     js_String := fun _ => "[value]";
     Error_name := fun _ => "Error" |}.

(** A provider whose request fails with a thrown string. *)
Definition provider_throws_string : Provider :=
  {| Resend_new := fun _ => None;
     emails_send := fun _ _ => Rejects (NonErr (VString "ECONNRESET"));
     js_String := fun _ => "[value]";
     Error_name := fun _ => "Error" |}.

(** The shape the templated payload has. *)
Definition template_shape (options payload : obj) : Prop :=
  payload !! "template" = Some (get options "templateId") /\
  payload !! "data" = Some (get options "templateData") /\
  payload !! "subject" = None /\
  payload !! "html" = None /\
  payload !! "text" = None.

(** Scenario 4 of the specification. *)
Definition template_call : obj :=
  {[ "to" := VString "a@b.com"; "templateId" := VString "t1";
     "templateData" := VObject [("name", VString "X")] ]}.

(** A call with a subject and a body and no recipient. *)
Definition no_recipient_call : obj :=
  {[ "subject" := VString "Hi"; "html" := VString "<p>hi</p>" ]}.

(** The manifest's [required] list: the array under "required", empty when
    the key is absent. *)
Definition required_list (params : value) : option (list value) :=
  match member params "required" with
  | VArray l => Some l
  | VUndefined | VNull => Some []
  | _ => None
  end.

(** [v] is the string [x]. *)
Definition names_string (x : string) (v : value) : bool :=
  if v is VString s then String.eqb s x else false.

(** The descriptor that one property gives. *)
Definition descriptor_of (reqs : list value) (e : string * value) : ToolParameterSchema :=
  {| param_name := fst e;
     param_type := validType (member (snd e) "type");
     param_description := js_or (member (snd e) "description") (VString "");
     param_required := VBool (existsb (names_string (fst e)) reqs) |}.

(** A parameter map with a declared type outside the five and a property
    without a description. *)
Definition sample_params : value :=
  VObject
    [ ("type", VString "object");
      ("properties",
       VObject [ ("to", VObject [("type", VString "string"); ("description", VString "Recipient")]);
                 ("count", VObject [("type", VString "integer")]) ]);
      ("required", VArray [VString "to"]) ].

(** The fields of a plugin before its constructor has run. *)
Definition blank_plugin : ResendPlugin :=
  {| pclient := None; resendConfig := ∅; tools := []; config_tools := [] |}.

(** [new ResendPlugin(cfg)] *)
Definition constructed (cfg : obj) : ResendPlugin * World :=
  snd (new_ResendPlugin ∅ (Some cfg) (blank_plugin, world0)).

(** A tool of the host under a name of its own. *)
Definition ping_tool : Plugin :=
  {| name := "ping"; description := "A tool of the host";
     parameters := []; execute := HostExecute 0 |}.

(** A tool of the host under the name of a tool that is registered. *)
Definition shadow_tool : Plugin :=
  {| name := "resend_send_email"; description := "A replacement";
     parameters := []; execute := HostExecute 1 |}.

(** The fields that only the constructor and [init] assign. *)
Definition core (p : ResendPlugin) : option ResendClient * obj :=
  (pclient p, resendConfig p).

(** A method that leaves those fields alone. *)
Definition keeps {A} (m : PM A) : Prop :=
  forall s, core (fst (snd (m s))) = core (fst s).

(** The client of a plugin is the one built from its configuration. *)
Definition client_of_config (p : ResendPlugin) : Prop :=
  forall c, pclient p = Some c -> config c = resendConfig p ∪ default_config.

(** The plugin after [new ResendPlugin({apiKey})] and [init()]. *)
Definition after_init : ResendPlugin * World :=
  run provider_ok CallInit (constructed keyed_cfg).

(** The plugin after [new ResendPlugin({})] and an [init()] that failed. *)
Definition after_failed_init : ResendPlugin * World :=
  run provider_ok CallInit (constructed ∅).

(** ** Further notions and sample inputs *)

(** The line [logger.error(m)] leaves in the log. *)
Definition error_entry (m : string) : LogEntry :=
  {| level := LError; text := m; detail := None |}.

(** The line the constructor of the client logs without a credential. *)
Definition warn_entry : LogEntry :=
  {| level := LWarn;
     text := "Resend API key not provided. Email functionality will not work.";
     detail := None |}.

(** ** The rest of the adapter *)

(** [getToolByFullName(fullName)] *)
Definition getToolByFullName (fullName : string) : PM (option Plugin) :=
  ts <- getTools ;;
  ret (List.find (fun tool => String.eqb (name tool) fullName) ts).

(** The loop of [debugPluginInterface]. *)
Fixpoint debugPluginInterface_loop (ts : list Plugin) : PM unit :=
  match ts with
  | [] => ret tt
  | tool :: rest =>
      liftW (logger LInfo ("  Tool: " +:+ name tool) None) ;;
      liftW (logger LInfo ("    Parameters: " +:+
                           String.concat ", " (map param_name (parameters tool))) None) ;;
      debugPluginInterface_loop rest
  end.

(** [debugPluginInterface()]; [this.name] is 'resend'. *)
Definition debugPluginInterface : PM bool :=
  liftW (logger LInfo ("Plugin [" +:+ "resend" +:+ "] Configuration:") None) ;;
  ts <- getTools ;;
  liftW (logger LInfo ("  Tools: " +:+ String.concat ", " (map name ts)) None) ;;
  ts' <- getTools ;;
  debugPluginInterface_loop ts' ;;
  ret true.

(** The options literal of the plugin's [sendEmail]. *)
Definition email_options (params : obj) : obj :=
  list_to_map [ ("to", get params "to"); ("subject", get params "subject");
                ("html", get params "html"); ("text", get params "text");
                ("from", get params "from"); ("replyTo", get params "replyTo");
                ("cc", get params "cc"); ("bcc", get params "bcc") ].

(** The options literal of the plugin's [sendTemplateEmail]. *)
Definition template_options (params : obj) : obj :=
  list_to_map [ ("to", get params "to"); ("templateId", get params "templateId");
                ("templateData", js_or (get params "templateData") (VObject []));
                ("from", get params "from"); ("replyTo", get params "replyTo");
                ("cc", get params "cc"); ("bcc", get params "bcc") ].

(** The entries [initializeTools] sets, in order: what it leaves in an empty
    registry. *)
Definition manifest_tools : list (string * Plugin) :=
  tools (fst (snd (initializeTools (blank_plugin, world0)))).

(** The registry after [initializeTools]. *)
Definition with_manifest_tools (m : list (string * Plugin)) : list (string * Plugin) :=
  fold_left (fun m e => Map_set (fst e) (snd e) m) manifest_tools m.

(** The plugin with another registry, and the derived list resynced. *)
Definition with_registry (p : ResendPlugin) (m : list (string * Plugin)) : ResendPlugin :=
  {| pclient := pclient p; resendConfig := resendConfig p;
     tools := m; config_tools := Map_values m |}.

(** The plugin with a client. *)
Definition with_client (p : ResendPlugin) (c : ResendClient) : ResendPlugin :=
  {| pclient := Some c; resendConfig := resendConfig p;
     tools := tools p; config_tools := config_tools p |}.

(** The registry is a map from each tool's name to the tool, and the derived
    list is in step with it. *)
Definition registry_ok (p : ResendPlugin) : Prop :=
  NoDup (Map_keys (tools p)) /\
  Forall (fun e => fst e = name (snd e)) (tools p) /\
  config_tools p = Map_values (tools p).

(** The client holds the SDK object made for the credential of its
    configuration. *)
Definition client_keyed (p : ResendPlugin) : Prop :=
  forall c, pclient p = Some c -> key (client c) = get (config c) "apiKey".

(** A method that leaves [f] of the state as it was. *)
Definition stable {A X} (f : ResendPlugin * World -> X) (m : PM A) : Prop :=
  forall s, f (snd (m s)) = f s.

(** An SDK whose constructor refuses a missing or empty key. *)
Definition provider_strict : Provider :=
  {| Resend_new := fun k => if truthy k then None
                            else Some (Err "Error" "Missing API key. Pass it to the constructor.");
     emails_send := fun _ _ => Resolves (VObject [("data", VObject [("id", VString "abc123")])]);
     js_String := fun _ => "[value]";
     Error_name := fun _ => "Error" |}.

(** The message of [init] for a client that is not configured. *)
Definition not_verified_msg : string :=
  "Resend client is not properly configured. Check your API key.".

(** A plugin whose host has registered a tool of its own and one under the
    name of a manifest tool. *)
Definition crowded : ResendPlugin * World :=
  snd (registerTool ping_tool (snd (registerTool shadow_tool (constructed keyed_cfg)))).

(** A call through the tool that carries attachments and tags. *)
Definition rich_call : obj :=
  <["attachments" := VArray [VObject [("filename", VString "a.txt");
                                      ("content", VString "aGk=")]]]>
    (<["tags" := VArray [VObject [("name", VString "kind"); ("value", VString "demo")]]]>
       hello_call).

(** A templated call through the tool without merge data. *)
Definition template_call_without_data : obj :=
  {[ "to" := VString "a@b.com"; "templateId" := VString "t1" ]}.

(** The requests one call adds: none, or one made with a configured client. *)
Definition adds_request (p : ResendPlugin) (w w' : World) : Prop :=
  exists new,
    net w' = net w ++ new /\ (length new <= 1)%nat /\
    Forall (fun rq => exists c, pclient p = Some c /\ fst rq = client c /\
                                truthy (get (config c) "apiKey") = true) new.

(** An SDK whose constructor refuses every key with an error of a class of
    its own, which sets no [name]. *)
Definition provider_auth_error : Provider :=
  {| Resend_new := fun _ => Some (Err "AuthError" "bad key");
     emails_send := fun _ _ => NeverSettles;
     js_String := fun _ => "[value]";
     Error_name := fun _ => "Error" |}.

(** A parameter map with a property of each of the five types and one of a
    type outside them. *)
Definition typed_params : value :=
  VObject
    [ ("type", VString "object");
      ("properties",
       VObject [ ("to", VObject [("type", VString "string"); ("description", VString "Recipient")]);
                 ("count", VObject [("type", VString "number")]);
                 ("urgent", VObject [("type", VString "boolean")]);
                 ("meta", VObject [("type", VString "object")]);
                 ("labels", VObject [("type", VString "array")]);
                 ("size", VObject [("type", VString "integer")]) ]);
      ("required", VArray [VString "to"; VString "count"]) ].

(** ** Every call on a plugin *)

(** What the host can do with a plugin: the calls of [Op], the other public
    methods, and a write to the configuration object it handed to the
    constructor, which the plugin keeps by reference ([cfg] is what the
    object holds after the write). *)
Inductive Call : Type :=
| Method (o : Op)
| CallGetTool (n : string)
| CallGetToolByFullName (n : string)
| CallGetManifests
| CallDebugPluginInterface
| HostWritesConfig (cfg : obj).

Definition perform (P : Provider) (c : Call) (s : ResendPlugin * World) : ResendPlugin * World :=
  match c with
  | Method o => run P o s
  | CallGetTool n => snd (getTool n s)
  | CallGetToolByFullName n => snd (getToolByFullName n s)
  | CallGetManifests => s
  | CallDebugPluginInterface => snd (debugPluginInterface s)
  | HostWritesConfig cfg =>
      ({| pclient := pclient (fst s); resendConfig := cfg;
          tools := tools (fst s); config_tools := config_tools (fst s) |}, snd s)
  end.

(** The call is a write of the host to the configuration object. *)
Definition host_write (c : Call) : bool :=
  match c with HostWritesConfig _ => true | _ => false end.

(** The plugin after [new ResendPlugin(cfg); init()], the removal of the
    credential from [cfg] by the host, and a second [init()]. *)
Definition after_reinit_without_key : ResendPlugin * World :=
  perform provider_ok (Method CallInit) (perform provider_ok (HostWritesConfig ∅) after_init).

(** ** Properties of the gateway client *)

Ltac run_eff :=
  cbv beta iota delta
    [bind ret throw throw_if try_catch isConfigured logger liftW this assign
     read read_opt no_usable_id response_id send fst snd] in *.

Lemma get_default_config_apiKey (cfg : obj) :
  get (cfg ∪ default_config) "apiKey" = get cfg "apiKey".
Proof.
  unfold get. rewrite lookup_union.
  destruct (cfg !! "apiKey"); reflexivity.
Qed.

(** A constructed client keeps the configuration merged over the defaults,
    and the world is changed by a warning at most. *)
Lemma new_ResendClient_Ok P cfg w c w' :
  new_ResendClient P cfg w = (Ok c, w') ->
  config c = cfg ∪ default_config /\ net w' = net w.
Proof.
  unfold new_ResendClient, new_Resend. run_eff.
  destruct (truthy (get (cfg ∪ default_config) "apiKey")); simpl;
    destruct (Resend_new P _); intros H; inversion H; subst; auto.
Qed.

Lemma truthy_not_nullish v : truthy v = true -> nullish v = false.
Proof. destruct v; simpl; congruence. Qed.

Lemma member_nullish v k : nullish v = true -> member v k = VUndefined.
Proof. destruct v; simpl; congruence. Qed.

Lemma no_usable_id_spec (response : value) (w : World) :
  no_usable_id response w = (Ok (negb (usable response)), w).
Proof.
  unfold no_usable_id, usable.
  destruct (truthy response) eqn:T; simpl; [|reflexivity].
  run_eff. rewrite (truthy_not_nullish _ T).
  destruct (nullish (member response "data")) eqn:N; [|reflexivity].
  rewrite (member_nullish _ "id" N). reflexivity.
Qed.

Lemma response_id_spec (response : value) (w : World) :
  usable response = true ->
  response_id response w = (Ok (member (member response "data") "id"), w).
Proof.
  unfold usable. intros [T I]%andb_true_iff.
  run_eff. rewrite (truthy_not_nullish _ T).
  destruct (nullish (member response "data")) eqn:N; [|reflexivity].
  rewrite (member_nullish _ "id" N) in I. discriminate.
Qed.

Lemma sendEmail_not_configured P c options w :
  truthy (get (config c) "apiKey") = false ->
  sendEmail P c options w
  = send_failure "Failed to send email: " (Err "Error" not_configured_msg) w.
Proof. intros H. unfold sendEmail. run_eff. rewrite H. reflexivity. Qed.

Lemma sendEmail_no_content P c options w :
  truthy (get (config c) "apiKey") = true ->
  truthy (get options "html") = false ->
  truthy (get options "text") = false ->
  sendEmail P c options w
  = send_failure "Failed to send email: " (Err "Error" no_content_msg) w.
Proof. intros H H1 H2. unfold sendEmail. run_eff. rewrite H, H1, H2. reflexivity. Qed.

(** A configured gateway with content makes one request, and the provider's
    answer decides the result. *)
Lemma sendEmail_configured P c options w :
  truthy (get (config c) "apiKey") = true ->
  truthy (get options "html") || truthy (get options "text") = true ->
  sendEmail P c options w
  = let payload := formatEmailOptions c options in
    let w' := sent (client c) payload w in
    match emails_send P (client c) payload with
    | Resolves response =>
        if usable response
        then (Ok {| id := member (member response "data") "id"; success := true |}, w')
        else send_failure "Failed to send email: " (Err "Error" no_response_msg) w'
    | Rejects e => send_failure "Failed to send email: " e w'
    | NeverSettles => (Pending, w')
    end.
Proof.
  intros H Hc.
  assert (Hn : negb (truthy (get options "html")) && negb (truthy (get options "text")) = false)
    by (destruct (truthy (get options "html")), (truthy (get options "text")); simpl in *; congruence).
  unfold sendEmail. generalize (formatEmailOptions c options) as payload. intros payload.
  unfold try_catch, bind, isConfigured, ret, throw_if, send. rewrite H, Hn.
  cbn -[no_usable_id response_id].
  destruct (emails_send P (client c) payload) as [response|e|]; try reflexivity.
  rewrite no_usable_id_spec.
  destruct (usable response) eqn:U; cbn -[response_id]; [|reflexivity].
  rewrite (response_id_spec _ _ U). reflexivity.
Qed.

Lemma sendTemplateEmail_not_configured P c options w :
  truthy (get (config c) "apiKey") = false ->
  sendTemplateEmail P c options w
  = send_failure "Failed to send template email: " (Err "Error" not_configured_msg) w.
Proof. intros H. unfold sendTemplateEmail. run_eff. rewrite H. reflexivity. Qed.

Lemma sendTemplateEmail_no_template P c options w :
  truthy (get (config c) "apiKey") = true ->
  truthy (get options "templateId") = false ->
  sendTemplateEmail P c options w
  = send_failure "Failed to send template email: " (Err "Error" no_template_msg) w.
Proof. intros H H1. unfold sendTemplateEmail. run_eff. rewrite H, H1. reflexivity. Qed.

Lemma sendTemplateEmail_configured P c options w :
  truthy (get (config c) "apiKey") = true ->
  truthy (get options "templateId") = true ->
  sendTemplateEmail P c options w
  = let payload := template_payload c options in
    let w' := sent (client c) payload w in
    match emails_send P (client c) payload with
    | Resolves response =>
        if usable response
        then (Ok {| id := member (member response "data") "id"; success := true |}, w')
        else send_failure "Failed to send template email: "
               (Err "Error" no_template_response_msg) w'
    | Rejects e => send_failure "Failed to send template email: " e w'
    | NeverSettles => (Pending, w')
    end.
Proof.
  intros H Ht.
  unfold sendTemplateEmail. fold (template_payload c options).
  generalize (template_payload c options) as payload. intros payload.
  unfold try_catch, bind, isConfigured, ret, throw_if, send. rewrite H, Ht.
  cbn -[no_usable_id response_id].
  destruct (emails_send P (client c) payload) as [response|e|]; try reflexivity.
  rewrite no_usable_id_spec.
  destruct (usable response) eqn:U; cbn -[response_id]; [|reflexivity].
  rewrite (response_id_spec _ _ U). reflexivity.
Qed.

(** *** Credentials *)

Lemma truthy_credential (cfg : obj) :
  credential_typed cfg ->
  (truthy (get cfg "apiKey") = true <-> has_credential cfg).
Proof.
  unfold credential_typed, has_credential, get.
  intros [E|[E|[s E]]]; rewrite E; simpl.
  - split; [discriminate|]. intros (s & Hs & _). discriminate.
  - split; [discriminate|]. intros (s & Hs & _). discriminate.
  - split.
    + intros T. exists s. split; [reflexivity|]. intros ->. discriminate.
    + intros (s' & Hs & Hne). inversion Hs; subst s'.
      destruct (String.eqb_spec s ""); [contradiction|reflexivity].
Qed.

(** C2. A gateway built from a configuration without a non-empty credential
    answers [isConfigured()] with false, and both [sendEmail] and
    [sendTemplateEmail] on it fail with the configuration error, leaving the
    list of outbound requests as it was; [isConfigured()] is true exactly
    when a non-empty credential is present, and it changes nothing. *)
Theorem unconfigured_gateway_fails_fast P (cfg : obj) w0 c w1 :
  credential_typed cfg ->
  new_ResendClient P cfg w0 = (Ok c, w1) ->
  exists b : bool,
    (forall w, isConfigured c w = (Ok b, w)) /\
    (b = true <-> has_credential cfg) /\
    (~ has_credential cfg ->
     b = false /\
     forall options w,
       (fst (sendEmail P c options w)
        = Throw (Err "Error" ("Failed to send email: " +:+ not_configured_msg)) /\
        net (snd (sendEmail P c options w)) = net w) /\
       (fst (sendTemplateEmail P c options w)
        = Throw (Err "Error" ("Failed to send template email: " +:+ not_configured_msg)) /\
        net (snd (sendTemplateEmail P c options w)) = net w)).
Proof.
  intros Ht Hnew.
  destruct (new_ResendClient_Ok _ _ _ _ _ Hnew) as [Hc _].
  pose proof (truthy_credential cfg Ht) as Hiff.
  exists (truthy (get (config c) "apiKey")).
  rewrite Hc, get_default_config_apiKey.
  split; [|split].
  - intros w. unfold isConfigured, ret. rewrite Hc, get_default_config_apiKey. reflexivity.
  - exact Hiff.
  - intros Hno.
    assert (F : truthy (get (config c) "apiKey") = false).
    { rewrite Hc, get_default_config_apiKey.
      destruct (truthy (get cfg "apiKey")); [|reflexivity].
      exfalso. apply Hno, Hiff. reflexivity. }
    split; [rewrite Hc, get_default_config_apiKey in F; exact F|].
    intros options w.
    rewrite (sendEmail_not_configured P c options w F).
    rewrite (sendTemplateEmail_not_configured P c options w F).
    repeat split.
Qed.

(** Witness of C2: the gateway built from the empty configuration. *)
Lemma unconfigured_gateway_fails_fast_witness :
  credential_typed ∅ /\
  fst (sendEmail provider_ok (gateway_of ∅) hello_call world0)
  = Throw (Err "Error" ("Failed to send email: " +:+ not_configured_msg)).
Proof.
  split; [left; reflexivity|].
  destruct (unconfigured_gateway_fails_fast provider_ok ∅ world0 (gateway_of ∅)
              {| net := [];
                 log := [{| level := LWarn;
                            text := "Resend API key not provided. Email functionality will not work.";
                            detail := None |}] |})
    as (b & _ & _ & H).
  - left; reflexivity.
  - vm_compute. reflexivity.
  - apply H.
    intros (s & Hs & _). vm_compute in Hs. discriminate.
Defined.

(** *** The payload of a raw send *)

Lemma sendEmail_configured_net P c options w :
  truthy (get (config c) "apiKey") = true ->
  truthy (get options "html") || truthy (get options "text") = true ->
  net (snd (sendEmail P c options w)) = net w ++ [(client c, formatEmailOptions c options)].
Proof.
  intros H Hc. rewrite (sendEmail_configured P c options w H Hc). cbv zeta.
  destruct (emails_send P (client c) (formatEmailOptions c options)) as [r|e|];
    [destruct (usable r)|..]; reflexivity.
Qed.

Lemma get_agree (o o' : obj) k : o' !! k = o !! k -> get o' k = get o k.
Proof. unfold get. intros ->. reflexivity. Qed.

(** [formatEmailOptions] reads ten fixed keys of the options, and "reply_to"
    is not one of them. *)
Lemma formatEmailOptions_ignores_reply_to c (options options' : obj) :
  (forall k, k <> "reply_to" -> options' !! k = options !! k) ->
  formatEmailOptions c options' = formatEmailOptions c options.
Proof.
  intros A. unfold formatEmailOptions.
  rewrite !(get_agree options options') by (apply A; discriminate).
  reflexivity.
Qed.

(** C1, as the code has it. On a configured gateway a raw send with content
    makes one request whose payload has: [from] equal to the call's [from]
    when that is truthy (given and not the empty string) and to the
    configured default otherwise; the reply-to under the wire name
    [reply_to], equal to the call's [replyTo] when truthy and to the
    configured default reply-to otherwise, with no field [replyTo]; [cc],
    [bcc], [attachments] and [tags] as the call has them. The payload does
    not depend on a field [reply_to] of the call. *)
Theorem sendEmail_payload_mapping P c (options : obj) w :
  truthy (get (config c) "apiKey") = true ->
  truthy (get options "html") || truthy (get options "text") = true ->
  exists payload : obj,
    net (snd (sendEmail P c options w)) = net w ++ [(client c, payload)] /\
    payload !! "from"
    = Some (if truthy (get options "from") then get options "from"
            else get (config c) "defaultFrom") /\
    payload !! "reply_to"
    = Some (if truthy (get options "replyTo") then get options "replyTo"
            else get (config c) "defaultReplyTo") /\
    payload !! "replyTo" = None /\
    payload !! "cc" = Some (get options "cc") /\
    payload !! "bcc" = Some (get options "bcc") /\
    payload !! "attachments" = Some (get options "attachments") /\
    payload !! "tags" = Some (get options "tags") /\
    (forall options' : obj,
        (forall k, k <> "reply_to" -> options' !! k = options !! k) ->
        net (snd (sendEmail P c options' w)) = net w ++ [(client c, payload)]).
Proof.
  intros H Hc. exists (formatEmailOptions c options).
  split; [apply sendEmail_configured_net; assumption|].
  repeat (split; [vm_compute; reflexivity|]).
  intros options' A.
  rewrite <- (formatEmailOptions_ignores_reply_to c options options' A).
  apply sendEmail_configured_net; [assumption|].
  rewrite !(get_agree options options') by (apply A; discriminate). assumption.
Qed.

Lemma sendEmail_payload_mapping_witness :
  exists payload : obj,
    net (snd (sendEmail provider_ok (gateway_of keyed_cfg) hello_call world0))
    = [(client (gateway_of keyed_cfg), payload)] /\
    payload !! "from" = Some (VString "onboarding@resend.dev") /\
    payload !! "reply_to" = Some VUndefined.
Proof.
  destruct (sendEmail_payload_mapping provider_ok (gateway_of keyed_cfg) hello_call world0)
    as (payload & Hn & Hf & Hr & _).
  - vm_compute. reflexivity.
  - vm_compute. reflexivity.
  - exists payload. split; [exact Hn|]. split; [exact Hf|exact Hr].
Defined.

(** C1 as stated fails: an explicit [from] that is the empty string is given,
    and the payload carries the configured default instead of it. *)
Lemma explicit_empty_from_replaced :
  exists payload : obj,
    net (snd (sendEmail provider_ok (gateway_of keyed_cfg) empty_from_call world0))
    = [(client (gateway_of keyed_cfg), payload)] /\
    empty_from_call !! "from" = Some (VString "") /\
    payload !! "from" = Some (VString "onboarding@resend.dev") /\
    payload !! "from" <> empty_from_call !! "from".
Proof.
  exists (formatEmailOptions (gateway_of keyed_cfg) empty_from_call).
  split; [vm_compute; reflexivity|].
  split; [vm_compute; reflexivity|].
  split; [vm_compute; reflexivity|].
  vm_compute. discriminate.
Qed.

(** *** Validation of the content *)

(** C3, as the code has it. A raw send in which [html] and [text] are both
    absent (or both falsy) fails before any request goes out; the error is
    the validation error on a configured gateway and the configuration error
    on one that is not, because the credential is checked first. *)
Theorem sendEmail_without_content_fails P c (options : obj) w :
  truthy (get options "html") = false ->
  truthy (get options "text") = false ->
  fst (sendEmail P c options w)
  = Throw (Err "Error" ("Failed to send email: " +:+
                        (if truthy (get (config c) "apiKey")
                         then no_content_msg else not_configured_msg))) /\
  net (snd (sendEmail P c options w)) = net w.
Proof.
  intros Hh Ht. destruct (truthy (get (config c) "apiKey")) eqn:K.
  - rewrite (sendEmail_no_content P c options w K Hh Ht). split; reflexivity.
  - rewrite (sendEmail_not_configured P c options w K). split; reflexivity.
Qed.

Lemma sendEmail_without_content_fails_witness :
  fst (sendEmail provider_ok (gateway_of keyed_cfg) bare_call world0)
  = Throw (Err "Error" ("Failed to send email: " +:+ no_content_msg)) /\
  net (snd (sendEmail provider_ok (gateway_of keyed_cfg) bare_call world0)) = [].
Proof.
  apply (sendEmail_without_content_fails provider_ok (gateway_of keyed_cfg) bare_call world0);
    vm_compute; reflexivity.
Defined.

(** C3 as stated fails: on a gateway without a credential the same call fails
    with the configuration error, not with the validation error. *)
Lemma no_content_unconfigured_is_configuration_error :
  bare_call !! "html" = None /\
  bare_call !! "text" = None /\
  fst (sendEmail provider_ok (gateway_of ∅) bare_call world0)
  = Throw (Err "Error" ("Failed to send email: " +:+ not_configured_msg)) /\
  fst (sendEmail provider_ok (gateway_of ∅) bare_call world0)
  <> Throw (Err "Error" ("Failed to send email: " +:+ no_content_msg)).
Proof.
  repeat split; try (vm_compute; reflexivity).
  vm_compute. discriminate.
Qed.

(** *** Failures of a raw send *)

(** C4, as the code has it. When the provider's call completes without a
    usable identifier the raw send fails with the delivery error. Whatever a
    raw send throws is a plain [Error] whose message is "Failed to send
    email: " followed by a text; when the provider's call failed with an
    [Error] of any class that text is its message, and when it failed with a
    value that is not an [Error] the text is "Unknown error". *)
Theorem sendEmail_failures_normalized P c (options : obj) w :
  (forall response,
      truthy (get (config c) "apiKey") = true ->
      truthy (get options "html") || truthy (get options "text") = true ->
      emails_send P (client c) (formatEmailOptions c options) = Resolves response ->
      usable response = false ->
      fst (sendEmail P c options w)
      = Throw (Err "Error" ("Failed to send email: " +:+ no_response_msg))) /\
  (forall e, fst (sendEmail P c options w) = Throw e ->
             exists m, e = Err "Error" ("Failed to send email: " +:+ m)) /\
  (forall e0,
      truthy (get (config c) "apiKey") = true ->
      truthy (get options "html") || truthy (get options "text") = true ->
      emails_send P (client c) (formatEmailOptions c options) = Rejects e0 ->
      fst (sendEmail P c options w)
      = Throw (Err "Error" ("Failed to send email: " +:+
                            match e0 with
                            | Err _ message => message
                            | NonErr _ => "Unknown error"
                            end))).
Proof.
  split; [|split].
  - intros response K Hc E U.
    rewrite (sendEmail_configured P c options w K Hc). cbv zeta. rewrite E, U. reflexivity.
  - intros e.
    destruct (truthy (get (config c) "apiKey")) eqn:K.
    + destruct (truthy (get options "html") || truthy (get options "text")) eqn:Hc.
      * rewrite (sendEmail_configured P c options w K Hc). cbv zeta.
        destruct (emails_send P (client c) (formatEmailOptions c options)) as [r|e0|].
        -- destruct (usable r); simpl; intros E; inversion E. eauto.
        -- simpl. intros E; inversion E. eauto.
        -- simpl. discriminate.
      * apply orb_false_iff in Hc as [Hh Ht].
        rewrite (sendEmail_no_content P c options w K Hh Ht).
        simpl. intros E; inversion E. eauto.
    + rewrite (sendEmail_not_configured P c options w K).
      simpl. intros E; inversion E. eauto.
  - intros e0 K Hc E.
    rewrite (sendEmail_configured P c options w K Hc). cbv zeta. rewrite E.
    destruct e0; reflexivity.
Qed.

Lemma sendEmail_failures_normalized_witness :
  fst (sendEmail provider_rate_limited (gateway_of keyed_cfg) hello_call world0)
  = Throw (Err "Error" "Failed to send email: rate limit exceeded").
Proof.
  destruct (sendEmail_failures_normalized provider_rate_limited (gateway_of keyed_cfg)
              hello_call world0) as (_ & _ & H).
  apply (H (Err "ResendError" "rate limit exceeded")); vm_compute; reflexivity.
Defined.

(** C4 as stated fails: the failure's text is "ECONNRESET", and the error
    that reaches the caller does not carry it. *)
Lemma thrown_string_text_is_lost :
  emails_send provider_throws_string (client (gateway_of keyed_cfg))
    (formatEmailOptions (gateway_of keyed_cfg) hello_call)
  = Rejects (NonErr (VString "ECONNRESET")) /\
  fst (sendEmail provider_throws_string (gateway_of keyed_cfg) hello_call world0)
  = Throw (Err "Error" "Failed to send email: Unknown error") /\
  String_includes "ECONNRESET" "Failed to send email: Unknown error" = false.
Proof. repeat split; vm_compute; reflexivity. Qed.

(** *** The payload of a templated send *)

Lemma template_payload_shape c (options : obj) :
  template_shape options (template_payload c options).
Proof. repeat split; vm_compute; reflexivity. Qed.

Lemma sendTemplateEmail_net P c (options : obj) w :
  net (snd (sendTemplateEmail P c options w))
  = net w ++ (if truthy (get (config c) "apiKey") && truthy (get options "templateId")
              then [(client c, template_payload c options)] else []).
Proof.
  destruct (truthy (get (config c) "apiKey")) eqn:K.
  - destruct (truthy (get options "templateId")) eqn:T.
    + rewrite (sendTemplateEmail_configured P c options w K T). cbv zeta.
      destruct (emails_send P (client c) (template_payload c options)) as [r|e|];
        [destruct (usable r)|..]; reflexivity.
    + rewrite (sendTemplateEmail_no_template P c options w K T). simpl.
      rewrite app_nil_r. reflexivity.
  - rewrite (sendTemplateEmail_not_configured P c options w K). simpl.
    rewrite app_nil_r. reflexivity.
Qed.

(** C5. Every request a templated send makes carries the template
    identifier under [template] and the merge data under [data], and has no
    [subject], [html] or [text] field, whatever the call holds under those
    names; on a configured gateway with a template id there is exactly one
    such request. *)
Theorem sendTemplateEmail_payload_shape P c (options : obj) w :
  (exists requests,
      net (snd (sendTemplateEmail P c options w)) = net w ++ requests /\
      Forall (fun rq => fst rq = client c /\ template_shape options (snd rq)) requests) /\
  (truthy (get (config c) "apiKey") = true ->
   truthy (get options "templateId") = true ->
   exists payload : obj,
     net (snd (sendTemplateEmail P c options w)) = net w ++ [(client c, payload)] /\
     template_shape options payload).
Proof.
  split.
  - eexists. split; [apply sendTemplateEmail_net|].
    destruct (_ && _); constructor; [|constructor].
    split; [reflexivity|apply template_payload_shape].
  - intros K T. exists (template_payload c options).
    split; [|apply template_payload_shape].
    rewrite sendTemplateEmail_net, K, T. reflexivity.
Qed.

Lemma sendTemplateEmail_payload_shape_witness :
  exists payload : obj,
    net (snd (sendTemplateEmail provider_ok (gateway_of keyed_cfg) template_call world0))
    = [(client (gateway_of keyed_cfg), payload)] /\
    payload !! "template" = Some (VString "t1") /\
    payload !! "data" = Some (VObject [("name", VString "X")]) /\
    payload !! "subject" = None /\ payload !! "html" = None /\ payload !! "text" = None.
Proof.
  destruct (sendTemplateEmail_payload_shape provider_ok (gateway_of keyed_cfg)
              template_call world0) as (_ & H).
  destruct H as (payload & Hn & Hs); [vm_compute; reflexivity..|].
  exists payload. split; [exact Hn|exact Hs].
Defined.

(** *** Recipient and subject *)

(** C7 as stated fails: a raw send without [to] is handed to the provider,
    and succeeds when the provider answers with an identifier. *)
Lemma missing_recipient_is_sent :
  no_recipient_call !! "to" = None /\
  sendEmail provider_ok (gateway_of keyed_cfg) no_recipient_call world0
  = (Ok {| id := VString "abc123"; success := true |},
     sent (client (gateway_of keyed_cfg))
          (formatEmailOptions (gateway_of keyed_cfg) no_recipient_call) world0).
Proof. split; vm_compute; reflexivity. Qed.

(** C7, as the code has it. The gateway does not look at [to] or [subject]:
    on a configured gateway a raw send with content hands them to the
    provider as the call has them, undefined when missing, and the call
    succeeds with the provider's identifier whenever the provider answers
    with one. *)
Theorem sendEmail_forwards_recipient_and_subject P c (options : obj) w response :
  truthy (get (config c) "apiKey") = true ->
  truthy (get options "html") || truthy (get options "text") = true ->
  emails_send P (client c) (formatEmailOptions c options) = Resolves response ->
  usable response = true ->
  exists payload : obj,
    sendEmail P c options w
    = (Ok {| id := member (member response "data") "id"; success := true |},
       sent (client c) payload w) /\
    payload !! "to" = Some (get options "to") /\
    payload !! "subject" = Some (get options "subject").
Proof.
  intros K Hc E U. exists (formatEmailOptions c options).
  rewrite (sendEmail_configured P c options w K Hc). cbv zeta. rewrite E, U.
  repeat split; vm_compute; reflexivity.
Qed.

Lemma sendEmail_forwards_recipient_and_subject_witness :
  exists payload : obj,
    sendEmail provider_ok (gateway_of keyed_cfg) no_recipient_call world0
    = (Ok {| id := VString "abc123"; success := true |},
       sent (client (gateway_of keyed_cfg)) payload world0) /\
    payload !! "to" = Some VUndefined /\
    payload !! "subject" = Some (VString "Hi").
Proof.
  apply (sendEmail_forwards_recipient_and_subject provider_ok (gateway_of keyed_cfg)
           no_recipient_call world0
           (VObject [("data", VObject [("id", VString "abc123")])]));
    vm_compute; reflexivity.
Defined.

(** *** The defaults of the constructor *)

Lemma get_union_default (cfg : obj) k :
  get (cfg ∪ default_config) k
  = match cfg !! k with Some v => v | None => get default_config k end.
Proof.
  unfold get. rewrite lookup_union.
  destruct (cfg !! k), (default_config !! k); reflexivity.
Qed.

(** C10. A client built from a configuration without the key [defaultFrom]
    has the default sender 'onboarding@resend.dev' (and, without the key
    [requestTimeout], the timeout 10000), so the payload of a send without
    an explicit [from] has that address as [from]; a key [defaultFrom]
    present with the value undefined replaces the default, and the payload's
    [from] is then undefined. *)
Theorem constructor_defaults P (cfg : obj) w0 c w1 :
  new_ResendClient P cfg w0 = (Ok c, w1) ->
  (cfg !! "defaultFrom" = None ->
   get (config c) "defaultFrom" = VString "onboarding@resend.dev" /\
   forall options : obj,
     truthy (get options "from") = false ->
     formatEmailOptions c options !! "from" = Some (VString "onboarding@resend.dev")) /\
  (cfg !! "requestTimeout" = None -> get (config c) "requestTimeout" = VNumber 10000) /\
  (cfg !! "defaultFrom" = Some VUndefined ->
   get (config c) "defaultFrom" = VUndefined /\
   forall options : obj,
     truthy (get options "from") = false ->
     formatEmailOptions c options !! "from" = Some VUndefined) /\
  (forall (options : obj) w,
      truthy (get (config c) "apiKey") = true ->
      truthy (get options "html") || truthy (get options "text") = true ->
      net (snd (sendEmail P c options w)) = net w ++ [(client c, formatEmailOptions c options)]).
Proof.
  intros Hnew. destruct (new_ResendClient_Ok _ _ _ _ _ Hnew) as [Hc _].
  assert (F : forall options : obj,
             formatEmailOptions c options !! "from"
             = Some (js_or (get options "from") (get (config c) "defaultFrom")))
    by (intros; vm_compute; reflexivity).
  repeat split.
  - rewrite Hc, get_union_default, H. reflexivity.
  - intros options Hf. rewrite F. unfold js_or. rewrite Hf.
    rewrite Hc, get_union_default, H. reflexivity.
  - intros H. rewrite Hc, get_union_default, H. reflexivity.
  - rewrite Hc, get_union_default, H. reflexivity.
  - intros options Hf. rewrite F. unfold js_or. rewrite Hf.
    rewrite Hc, get_union_default, H. reflexivity.
  - intros options w K Hct. apply sendEmail_configured_net; assumption.
Qed.

Lemma constructor_defaults_witness :
  get (config (gateway_of keyed_cfg)) "defaultFrom" = VString "onboarding@resend.dev" /\
  get (config (gateway_of keyed_cfg)) "requestTimeout" = VNumber 10000.
Proof.
  destruct (constructor_defaults provider_ok keyed_cfg world0 (gateway_of keyed_cfg) world0)
    as (Hd & Ht & _).
  - vm_compute. reflexivity.
  - split; [apply Hd|apply Ht]; vm_compute; reflexivity.
Defined.

(** ** Properties of the tool adapter *)

(** *** Conversion of a parameter schema *)

Lemma existsb_names_string x (l : list value) :
  existsb (names_string x) l = true <-> VString x ∈ l.
Proof.
  rewrite existsb_exists. split.
  - intros (v & Hin & Hv). destruct v; simpl in Hv; try discriminate.
    apply String.eqb_eq in Hv. subst. apply list_elem_of_In. exact Hin.
  - intros Hin. exists (VString x). split; [apply list_elem_of_In; exact Hin|].
    simpl. apply String.eqb_refl.
Qed.

Lemma existsb_eqb_string x (l : list string) :
  existsb (String.eqb x) l = true <-> x ∈ l.
Proof.
  rewrite existsb_exists. split.
  - intros (y & Hin & Hy). apply String.eqb_eq in Hy. subst. apply list_elem_of_In. exact Hin.
  - intros Hin. exists x. split; [apply list_elem_of_In; exact Hin|apply String.eqb_refl].
Qed.

Lemma convertParameters_loop_spec {S} (params : value) reqs entries acc (s : S) :
  nullish params = false ->
  required_list params = Some reqs ->
  Forall (fun e => nullish (snd e) = false) entries ->
  convertParameters_loop params entries acc s
  = (Ok (acc ++ map (descriptor_of reqs) entries), s).
Proof.
  intros Hp Hr Hall. revert acc.
  induction Hall as [|[name prop] rest Hprop _ IH]; intros acc; simpl.
  - rewrite app_nil_r. reflexivity.
  - simpl in Hprop. unfold bind at 1, read at 1. rewrite Hprop. unfold ret at 1.
    unfold bind at 1, read at 1. rewrite Hprop. unfold ret at 1.
    unfold bind at 1, read at 1. rewrite Hp. unfold ret at 1.
    assert (Hinc : (if nullish (member params "required")
                    then ret VUndefined else includes (S:=S) (member params "required") name) s
                   = (Ok (match member params "required" with
                          | VArray l => VBool (existsb (names_string name) l)
                          | _ => VUndefined
                          end), s)).
    { unfold required_list in Hr.
      destruct (member params "required"); simpl; try reflexivity; discriminate. }
    unfold bind at 1. rewrite Hinc.
    rewrite IH. rewrite <- app_assoc. simpl.
    repeat f_equal. unfold descriptor_of. simpl. f_equal.
    unfold required_list in Hr.
    destruct (member params "required"); inversion Hr; subst; try reflexivity.
    unfold js_or. simpl. destruct (existsb _ _); reflexivity.
Qed.

(** C8. For a manifest parameter map (its properties an object whose values
    are property schemas, its [required] a list or absent) the conversion
    returns, without an error, one descriptor per property, in order and
    under the property's name; the type is the declared type when that is
    one of string, number, boolean, object, array, and "string" otherwise;
    the description is the declared one, and the empty string when there is
    none; the required flag is true exactly when the name is in [required]. *)
Theorem convertParameters_descriptors {S} (params : value) props reqs (s : S) :
  truthy params = true ->
  member params "properties" = VObject props ->
  Forall (fun e => nullish (snd e) = false) props ->
  required_list params = Some reqs ->
  exists result,
    convertParameters params s = (Ok result, s) /\
    map param_name result = map fst props /\
    forall i name prop,
      props !! i = Some (name, prop) ->
      exists d,
        result !! i = Some d /\
        param_name d = name /\
        (forall t, member prop "type" = VString t ->
                   t ∈ ["string"; "number"; "boolean"; "object"; "array"] ->
                   param_type d = t) /\
        ((forall t, member prop "type" = VString t ->
                    t ∉ ["string"; "number"; "boolean"; "object"; "array"]) ->
         param_type d = "string") /\
        (forall t, member prop "description" = VString t -> param_description d = VString t) /\
        (member prop "description" = VUndefined -> param_description d = VString "") /\
        (VString name ∈ reqs -> param_required d = VBool true) /\
        (VString name ∉ reqs -> param_required d = VBool false).
Proof.
  intros Hp Hprops Hall Hr.
  exists (map (descriptor_of reqs) props). split; [|split].
  - unfold convertParameters. rewrite Hp, Hprops. simpl.
    apply (convertParameters_loop_spec params reqs props [] s);
      [apply truthy_not_nullish|..]; assumption.
  - rewrite map_map. reflexivity.
  - intros i name prop Hi. exists (descriptor_of reqs (name, prop)).
    split; [rewrite list_lookup_fmap, Hi; reflexivity|].
    unfold descriptor_of. simpl. repeat split.
    + intros t Ht Hin. rewrite Ht. unfold validType.
      change ["string"; "number"; "boolean"; "object"; "array"] with allowed_types in Hin.
      apply existsb_eqb_string in Hin. rewrite Hin. reflexivity.
    + intros Hno. unfold validType.
      destruct (member prop "type") as [| | | | |t| |]; try reflexivity.
      destruct (existsb (String.eqb t) allowed_types) eqn:E; [|reflexivity].
      apply existsb_eqb_string in E. exfalso.
      change allowed_types with ["string"; "number"; "boolean"; "object"; "array"] in E.
      exact (Hno t eq_refl E).
    + intros t Ht. rewrite Ht. unfold js_or. simpl.
      destruct (String.eqb_spec t ""); [subst|]; reflexivity.
    + intros Hd. rewrite Hd. reflexivity.
    + intros Hin. apply existsb_names_string in Hin. rewrite Hin. reflexivity.
    + intros Hnin. destruct (existsb (names_string name) reqs) eqn:E; [|reflexivity].
      apply existsb_names_string in E. contradiction.
Qed.

Lemma convertParameters_descriptors_witness :
  exists result,
    convertParameters typed_params world0 = (Ok result, world0) /\
    map param_name result = ["to"; "count"; "urgent"; "meta"; "labels"; "size"] /\
    (exists d, result !! 1%nat = Some d /\ param_type d = "number" /\
               param_required d = VBool true) /\
    (exists d, result !! 4%nat = Some d /\ param_type d = "array" /\
               param_required d = VBool false) /\
    (exists d, result !! 5%nat = Some d /\ param_type d = "string").
Proof.
  destruct (convertParameters_descriptors typed_params
              [ ("to", VObject [("type", VString "string"); ("description", VString "Recipient")]);
                ("count", VObject [("type", VString "number")]);
                ("urgent", VObject [("type", VString "boolean")]);
                ("meta", VObject [("type", VString "object")]);
                ("labels", VObject [("type", VString "array")]);
                ("size", VObject [("type", VString "integer")]) ]
              [VString "to"; VString "count"] world0)
    as (result & Hr & Hn & H).
  - reflexivity.
  - reflexivity.
  - repeat constructor.
  - reflexivity.
  - exists result. split; [exact Hr|]. split; [exact Hn|]. split; [|split].
    + destruct (H 1%nat "count" (VObject [("type", VString "number")]) eq_refl)
        as (d & Hd & _ & Ht & _ & _ & _ & Hreq & _).
      exists d. split; [exact Hd|]. split.
      * apply (Ht "number"); [reflexivity|]. repeat constructor.
      * apply Hreq. repeat constructor.
    + destruct (H 4%nat "labels" (VObject [("type", VString "array")]) eq_refl)
        as (d & Hd & _ & Ht & _ & _ & _ & _ & Hnreq).
      exists d. split; [exact Hd|]. split.
      * apply (Ht "array"); [reflexivity|]. repeat constructor.
      * apply Hnreq. intros Hin.
        repeat (apply elem_of_cons in Hin as [Hin|Hin]; [discriminate|]). inversion Hin.
    + destruct (H 5%nat "size" (VObject [("type", VString "integer")]) eq_refl)
        as (d & Hd & _ & _ & Hs & _).
      exists d. split; [exact Hd|]. apply Hs.
      intros t Ht Hin. simpl in Ht. injection Ht as <-.
      repeat (apply elem_of_cons in Hin as [Hin|Hin]; [discriminate|]). inversion Hin.
Defined.

Example convertParameters_typed_sample :
  convertParameters typed_params world0
  = (Ok [ {| param_name := "to"; param_type := "string";
             param_description := VString "Recipient"; param_required := VBool true |};
          {| param_name := "count"; param_type := "number";
             param_description := VString ""; param_required := VBool true |};
          {| param_name := "urgent"; param_type := "boolean";
             param_description := VString ""; param_required := VBool false |};
          {| param_name := "meta"; param_type := "object";
             param_description := VString ""; param_required := VBool false |};
          {| param_name := "labels"; param_type := "array";
             param_description := VString ""; param_required := VBool false |};
          {| param_name := "size"; param_type := "string";
             param_description := VString ""; param_required := VBool false |} ],
     world0).
Proof. reflexivity. Qed.

Example convertParameters_sample :
  convertParameters sample_params world0
  = (Ok [ {| param_name := "to"; param_type := "string";
             param_description := VString "Recipient"; param_required := VBool true |};
          {| param_name := "count"; param_type := "string";
             param_description := VString ""; param_required := VBool false |} ],
     world0).
Proof. reflexivity. Qed.

(** *** The registry *)

Lemma Map_delete_set_fresh {V} k (v : V) (m : list (string * V)) :
  k ∉ Map_keys m -> Map_delete k (Map_set k v m) = m.
Proof.
  induction m as [|[k' v'] m IH]; simpl; intros Hk.
  - rewrite String.eqb_refl. reflexivity.
  - apply not_elem_of_cons in Hk as [Hne Hk].
    destruct (String.eqb_spec k k') as [->|_]; [contradiction|].
    simpl. destruct (String.eqb_spec k k') as [->|_]; [contradiction|].
    rewrite (IH Hk). reflexivity.
Qed.

Lemma Map_has_set {V} k (v : V) (m : list (string * V)) :
  Map_has k (Map_set k v m) = true.
Proof.
  unfold Map_has. induction m as [|[k' v'] m IH]; simpl.
  - rewrite String.eqb_refl. reflexivity.
  - destruct (String.eqb_spec k k') as [->|Hne]; simpl.
    + rewrite String.eqb_refl. reflexivity.
    + destruct (String.eqb_spec k k'); [contradiction|]. exact IH.
Qed.

Lemma Map_get_set {V} k (v : V) (m : list (string * V)) :
  Map_get k (Map_set k v m) = Some v.
Proof.
  unfold Map_get. induction m as [|[k' v'] m IH]; simpl.
  - rewrite String.eqb_refl. reflexivity.
  - destruct (String.eqb_spec k k') as [->|Hne]; simpl.
    + rewrite String.eqb_refl. reflexivity.
    + destruct (String.eqb_spec k k'); [contradiction|]. exact IH.
Qed.

(** C9, as the code has it. [registerTool] and [removeTool] each leave the
    derived list [config.tools] equal to the values of the registry; and
    when no tool of that name is registered, registering a tool and then
    removing it by name gives back the registry as it was, with [removeTool]
    returning true. *)
Theorem register_then_remove_restores (tool : Plugin) (p : ResendPlugin) (w : World) :
  name tool ∉ Map_keys (tools p) ->
  let s1 := snd (registerTool tool (p, w)) in
  let s2 := snd (removeTool (name tool) s1) in
  config_tools (fst s1) = Map_values (tools (fst s1)) /\
  Map_get (name tool) (tools (fst s1)) = Some tool /\
  config_tools (fst s2) = Map_values (tools (fst s2)) /\
  tools (fst s2) = tools p /\
  fst (removeTool (name tool) s1) = Ok true /\
  (forall n p' w',
      config_tools (fst (snd (removeTool n (p', w'))))
      = Map_values (tools (fst (snd (removeTool n (p', w')))))) /\
  (forall t p' w',
      config_tools (fst (snd (registerTool t (p', w'))))
      = Map_values (tools (fst (snd (registerTool t (p', w')))))).
Proof.
  intros Hfresh. cbn -[Map_has Map_get Map_values Map_keys].
  rewrite (Map_delete_set_fresh _ _ _ Hfresh), Map_has_set.
  rewrite Map_get_set. repeat split.
Qed.

Lemma register_then_remove_restores_witness :
  tools (fst (snd (removeTool "ping"
                     (snd (registerTool ping_tool (constructed keyed_cfg))))))
  = tools (fst (constructed keyed_cfg)).
Proof.
  apply (register_then_remove_restores ping_tool
           (fst (constructed keyed_cfg)) (snd (constructed keyed_cfg))).
  vm_compute. intros H.
  repeat (apply elem_of_cons in H as [H|H]; [discriminate|]).
  inversion H.
Defined.

(** C9 as stated fails: registering a tool under a name that is taken
    overwrites the entry, and removing it leaves the registry without the
    tool it had. *)
Lemma register_then_remove_loses_overwritten :
  let s0 := constructed keyed_cfg in
  let s2 := snd (removeTool (name shadow_tool) (snd (registerTool shadow_tool s0))) in
  Map_keys (tools (fst s0)) = ["resend_send_email"; "resend_send_template_email"] /\
  Map_keys (tools (fst s2)) = ["resend_send_template_email"] /\
  tools (fst s2) <> tools (fst s0).
Proof.
  cbv zeta. split; [reflexivity|]. split; [reflexivity|].
  intros H. apply (f_equal Map_keys) in H. vm_compute in H. discriminate.
Qed.

(** *** The life cycle *)

Lemma keeps_ret {A} (a : A) : keeps (ret a).
Proof. intros s. reflexivity. Qed.

Lemma keeps_throw {A} e : keeps (throw (A:=A) e).
Proof. intros s. reflexivity. Qed.

Lemma keeps_throw_if b e : keeps (throw_if b e).
Proof. destruct b; [apply keeps_throw|apply keeps_ret]. Qed.

Lemma keeps_this : keeps this.
Proof. intros s. reflexivity. Qed.

Lemma keeps_liftW {A} (m : M A) : keeps (liftW m).
Proof. intros [p w]. unfold liftW. simpl. destruct (m w). reflexivity. Qed.

Lemma keeps_bind {A B} (m : PM A) (k : A -> PM B) :
  keeps m -> (forall a, keeps (k a)) -> keeps (bind m k).
Proof.
  intros Hm Hk s. unfold bind. specialize (Hm s).
  destruct (m s) as [[a|e|] s']; simpl in *; try assumption.
  rewrite (Hk a s'). assumption.
Qed.

Lemma keeps_try_catch {A} (m : PM A) (h : thrown -> PM A) :
  keeps m -> (forall e, keeps (h e)) -> keeps (try_catch m h).
Proof.
  intros Hm Hh s. unfold try_catch. specialize (Hm s).
  destruct (m s) as [[a|e|] s']; simpl in *; try assumption.
  rewrite (Hh e s'). assumption.
Qed.

Lemma keeps_assign f : (forall p, core (f p) = core p) -> keeps (assign f).
Proof. intros H [p w]. apply H. Qed.

(** The conversion does not touch the state it runs in. *)
Lemma convertParameters_loop_state {S} params entries acc (s : S) :
  snd (convertParameters_loop params entries acc s) = s.
Proof.
  revert acc. induction entries as [|[name prop] rest IH]; intros acc; simpl; [reflexivity|].
  unfold bind, read, includes, ret, throw.
  destruct (nullish prop); [reflexivity|].
  destruct (nullish params); [reflexivity|].
  destruct (nullish (member params "required")); [apply IH|].
  destruct (member params "required"); try reflexivity; apply IH.
Qed.

Lemma convertParameters_state {S} params (s : S) :
  snd (convertParameters params s) = s.
Proof.
  unfold convertParameters. destruct (_ && _); [|reflexivity].
  apply convertParameters_loop_state.
Qed.

Lemma keeps_convertParameters params : keeps (convertParameters params).
Proof. intros s. rewrite convertParameters_state. reflexivity. Qed.

Create HintDb keeps.
#[local] Hint Resolve keeps_ret keeps_throw keeps_throw_if keeps_this keeps_liftW
  keeps_convertParameters : keeps.

Ltac keeps_step :=
  first [ solve [auto with keeps]
        | apply keeps_bind; [|intros ?]
        | apply keeps_try_catch; [|intros ?]
        | apply keeps_assign; intros ?; reflexivity ].

Lemma keeps_initializeTools_loop manifests : keeps (initializeTools_loop manifests).
Proof.
  induction manifests as [|m rest IH]; simpl; [apply keeps_ret|].
  unfold tools_set. repeat keeps_step.
Qed.

Lemma keeps_initializeTools : keeps initializeTools.
Proof.
  unfold initializeTools, resync. apply keeps_bind; [apply keeps_initializeTools_loop|].
  intros _. keeps_step.
Qed.

Lemma keeps_logToolsSummary : keeps logToolsSummary.
Proof. unfold logToolsSummary. repeat keeps_step. Qed.

#[local] Hint Resolve keeps_initializeTools keeps_logToolsSummary : keeps.

Lemma keeps_registerTool tool : keeps (registerTool tool).
Proof. unfold registerTool, tools_set, resync. repeat keeps_step. Qed.

Lemma keeps_removeTool n : keeps (removeTool n).
Proof. unfold removeTool, tools_delete, resync. repeat keeps_step. Qed.

Lemma keeps_getTools : keeps getTools.
Proof. unfold getTools. repeat keeps_step. Qed.

Lemma keeps_plugin_sendEmail P params : keeps (plugin_sendEmail P params).
Proof.
  unfold plugin_sendEmail. apply keeps_bind; [apply keeps_this|]. intros p.
  destruct (pclient p); repeat keeps_step.
Qed.

Lemma keeps_plugin_sendTemplateEmail P params : keeps (plugin_sendTemplateEmail P params).
Proof.
  unfold plugin_sendTemplateEmail. apply keeps_bind; [apply keeps_this|]. intros p.
  destruct (pclient p); repeat keeps_step.
Qed.

Lemma keeps_execute_manifest P manifest params : keeps (execute_manifest P manifest params).
Proof.
  unfold execute_manifest. apply keeps_bind; [apply keeps_this|]. intros p.
  apply keeps_bind; [apply keeps_throw_if|]. intros _.
  apply keeps_try_catch.
  - destruct (String.eqb _ "send_email"); [apply keeps_plugin_sendEmail|].
    destruct (String.eqb _ "send_template_email");
      [apply keeps_plugin_sendTemplateEmail|apply keeps_throw].
  - intros e. apply keeps_bind; [apply keeps_liftW|]. intros _.
    destruct e; apply keeps_throw.
Qed.

Lemma bind_this {A} (k : ResendPlugin -> PM A) p w : bind this k (p, w) = k p (p, w).
Proof. reflexivity. Qed.

Lemma bind_liftW {A B} (m : M A) (k : A -> PM B) p w :
  bind (liftW m) k (p, w)
  = match m w with
    | (Ok a, w') => k a (p, w')
    | (Throw e, w') => (Throw e, (p, w'))
    | (Pending, w') => (Pending, (p, w'))
    end.
Proof. unfold bind, liftW. simpl. destruct (m w) as [[a|e|] w']; reflexivity. Qed.

Lemma bind_core {A B} (m : PM A) (k : A -> PM B) s :
  (forall a, keeps (k a)) ->
  core (fst (snd (bind m k s))) = core (fst (snd (m s))).
Proof.
  intros Hk. unfold bind. destruct (m s) as [[a|e|] s']; try reflexivity.
  apply Hk.
Qed.

Lemma try_catch_core {A} (m : PM A) (h : thrown -> PM A) s :
  (forall e, keeps (h e)) ->
  core (fst (snd (try_catch m h s))) = core (fst (snd (m s))).
Proof.
  intros Hh. unfold try_catch. destruct (m s) as [[a|e|] s']; try reflexivity.
  apply Hh.
Qed.

(** [init] assigns the client as soon as it is constructed, before it is
    verified, and assigns nothing else of the two fields. *)
Lemma init_core P p w :
  core (fst (snd (init P (p, w))))
  = match new_ResendClient P (resendConfig p) w with
    | (Ok c, _) => (Some c, resendConfig p)
    | _ => core p
    end.
Proof.
  unfold init. rewrite try_catch_core by (intros e; repeat keeps_step).
  rewrite bind_this, bind_liftW.
  destruct (new_ResendClient P (resendConfig p) w) as [[c|e|] w1]; try reflexivity.
  rewrite bind_core; [reflexivity|].
  intros _. repeat keeps_step.
Qed.

Lemma run_core P o s :
  o <> CallInit -> core (fst (run P o s)) = core (fst s).
Proof.
  destruct o; simpl; intros Ho; try contradiction.
  - apply keeps_execute_manifest.
  - apply keeps_plugin_sendEmail.
  - apply keeps_plugin_sendTemplateEmail.
  - apply keeps_registerTool.
  - apply keeps_removeTool.
  - apply keeps_getTools.
Qed.

Lemma client_of_config_core p p' :
  core p' = core p -> client_of_config p -> client_of_config p'.
Proof.
  unfold core, client_of_config. intros E H c Hc.
  inversion E as [[E1 E2]]. rewrite E2. apply H. rewrite <- E1. exact Hc.
Qed.

Lemma init_client_of_config P p w :
  client_of_config p -> client_of_config (fst (snd (init P (p, w)))).
Proof.
  intros H. pose proof (init_core P p w) as E.
  destruct (new_ResendClient P (resendConfig p) w) as [[c|e|] w1] eqn:N;
    try (eapply client_of_config_core; eassumption).
  apply new_ResendClient_Ok in N as [N _].
  unfold core in E. inversion E as [[E1 E2]].
  intros c' Hc'. rewrite E1 in Hc'. inversion Hc'; subst c'. rewrite E2. exact N.
Qed.

Lemma reachable_client_of_config P s : reachable P s -> client_of_config (fst s).
Proof.
  induction 1 as [env cfg [p0 w0]|o [p w] _ IH].
  - assert (E : pclient (fst (snd (new_ResendPlugin env cfg (p0, w0)))) = None).
    { unfold new_ResendPlugin.
      match goal with
      | |- pclient (fst (snd (bind ?m ?k ?s))) = _ =>
          pose proof (bind_core m k s (fun _ => keeps_initializeTools)) as C
      end.
      apply (f_equal fst) in C. exact C. }
    intros c Hc. rewrite E in Hc. discriminate.
  - destruct o; try (eapply client_of_config_core; [apply run_core; discriminate|exact IH]).
    simpl. apply init_client_of_config. exact IH.
Qed.

Lemma Initialized_run P o s :
  reachable P s -> Initialized (fst s) -> Initialized (fst (run P o s)).
Proof.
  intros Hr (c & Hc & K).
  assert (Keep : core (fst (run P o s)) = core (fst s) -> Initialized (fst (run P o s))).
  { unfold core. intros E. inversion E as [[E1 E2]]. exists c. rewrite E1. auto. }
  destruct o; try (apply Keep, run_core; discriminate).
  destruct s as [p w]. simpl in *.
  pose proof (init_core P p w) as E.
  destruct (new_ResendClient P (resendConfig p) w) as [[c'|e|] w1] eqn:N;
    try (apply Keep; exact E).
  apply new_ResendClient_Ok in N as [N _].
  unfold core in E. inversion E as [[E1 E2]].
  exists c'. split; [exact E1|].
  pose proof (reachable_client_of_config P (p, w) Hr c Hc) as Q. simpl in Q.
  rewrite N, <- Q. exact K.
Qed.

Lemma plugin_sendEmail_unconfigured P params p w c :
  pclient p = Some c ->
  truthy (get (config c) "apiKey") = false ->
  plugin_sendEmail P params (p, w)
  = (Throw (Err "Error" ("Failed to send email: Failed to send email: " +:+ not_configured_msg)),
     (p, log_error ("Failed to send email: Failed to send email: " +:+ not_configured_msg)
           (log_error ("Failed to send email: " +:+ not_configured_msg) w))).
Proof.
  intros Hc K. unfold plugin_sendEmail. rewrite bind_this, Hc.
  unfold try_catch, liftW. cbn -[sendEmail].
  rewrite (sendEmail_not_configured P c _ w K). reflexivity.
Qed.

Lemma plugin_sendTemplateEmail_unconfigured P params p w c :
  pclient p = Some c ->
  truthy (get (config c) "apiKey") = false ->
  plugin_sendTemplateEmail P params (p, w)
  = (Throw (Err "Error" ("Failed to send template email: Failed to send template email: "
                         +:+ not_configured_msg)),
     (p, log_error ("Failed to send template email: Failed to send template email: "
                    +:+ not_configured_msg)
           (log_error ("Failed to send template email: " +:+ not_configured_msg) w))).
Proof.
  intros Hc K. unfold plugin_sendTemplateEmail. rewrite bind_this, Hc.
  unfold try_catch, liftW. cbn -[sendTemplateEmail].
  rewrite (sendTemplateEmail_not_configured P c _ w K). reflexivity.
Qed.


(** C6 as stated fails: [init] has failed, the adapter is not Initialized,
    and the execution of a tool fails with the configuration error of the
    gateway, not with the "not initialized" error. *)
Lemma failed_init_leaves_client :
  fst (init provider_ok (constructed ∅))
  = Throw (Err "Error" "Resend plugin initialization failed: Error: Resend client is not properly configured. Check your API key.") /\
  ~ Initialized (fst after_failed_init) /\
  fst (execute_manifest provider_ok "resend_send_email" hello_call after_failed_init)
  = Throw (Err "Error" ("Failed to send email: Failed to send email: " +:+ not_configured_msg)) /\
  fst (execute_manifest provider_ok "resend_send_email" hello_call after_failed_init)
  <> Throw (Err "Error" not_initialized_msg).
Proof.
  split; [vm_compute; reflexivity|].
  split.
  - intros (c & Hc & K). vm_compute in Hc. inversion Hc; subst c.
    vm_compute in K. discriminate.
  - split; [vm_compute; reflexivity|]. vm_compute. discriminate.
Qed.

(** ** Further properties of the gateway client *)

(** The three ways a raw send can go, by the two guards. *)
Lemma sendEmail_cases P c (options : obj) w :
  (truthy (get (config c) "apiKey") = false /\
   sendEmail P c options w
   = send_failure "Failed to send email: " (Err "Error" not_configured_msg) w) \/
  (truthy (get (config c) "apiKey") = true /\
   truthy (get options "html") || truthy (get options "text") = false /\
   sendEmail P c options w
   = send_failure "Failed to send email: " (Err "Error" no_content_msg) w) \/
  (truthy (get (config c) "apiKey") = true /\
   truthy (get options "html") || truthy (get options "text") = true /\
   sendEmail P c options w
   = match emails_send P (client c) (formatEmailOptions c options) with
     | Resolves response =>
         if usable response
         then (Ok {| id := member (member response "data") "id"; success := true |},
               sent (client c) (formatEmailOptions c options) w)
         else send_failure "Failed to send email: " (Err "Error" no_response_msg)
                (sent (client c) (formatEmailOptions c options) w)
     | Rejects e => send_failure "Failed to send email: " e
                      (sent (client c) (formatEmailOptions c options) w)
     | NeverSettles => (Pending, sent (client c) (formatEmailOptions c options) w)
     end).
Proof.
  destruct (truthy (get (config c) "apiKey")) eqn:K.
  - destruct (truthy (get options "html") || truthy (get options "text")) eqn:Hc.
    + right; right. repeat split. apply (sendEmail_configured P c options w K Hc).
    + right; left. repeat split. apply orb_false_iff in Hc as [Hh Ht].
      apply sendEmail_no_content; assumption.
  - left. split; [reflexivity|]. apply sendEmail_not_configured; assumption.
Qed.

Lemma sendTemplateEmail_cases P c (options : obj) w :
  (truthy (get (config c) "apiKey") = false /\
   sendTemplateEmail P c options w
   = send_failure "Failed to send template email: " (Err "Error" not_configured_msg) w) \/
  (truthy (get (config c) "apiKey") = true /\
   truthy (get options "templateId") = false /\
   sendTemplateEmail P c options w
   = send_failure "Failed to send template email: " (Err "Error" no_template_msg) w) \/
  (truthy (get (config c) "apiKey") = true /\
   truthy (get options "templateId") = true /\
   sendTemplateEmail P c options w
   = match emails_send P (client c) (template_payload c options) with
     | Resolves response =>
         if usable response
         then (Ok {| id := member (member response "data") "id"; success := true |},
               sent (client c) (template_payload c options) w)
         else send_failure "Failed to send template email: "
                (Err "Error" no_template_response_msg)
                (sent (client c) (template_payload c options) w)
     | Rejects e => send_failure "Failed to send template email: " e
                      (sent (client c) (template_payload c options) w)
     | NeverSettles => (Pending, sent (client c) (template_payload c options) w)
     end).
Proof.
  destruct (truthy (get (config c) "apiKey")) eqn:K.
  - destruct (truthy (get options "templateId")) eqn:T.
    + right; right. repeat split. apply (sendTemplateEmail_configured P c options w K T).
    + right; left. repeat split. apply sendTemplateEmail_no_template; assumption.
  - left. split; [reflexivity|]. apply sendTemplateEmail_not_configured; assumption.
Qed.

Lemma usable_id_truthy response :
  usable response = true -> truthy (member (member response "data") "id") = true.
Proof. unfold usable. intros [_ H]%andb_true_iff. exact H. Qed.

(** X1. A raw send returns a result only when the gateway is configured,
    the call has [html] or [text], and the provider answered with an
    identifier: the result is then that identifier with [success] true, one
    request has gone out and nothing is logged. *)
Theorem sendEmail_success_means_provider_id P c (options : obj) w r w' :
  sendEmail P c options w = (Ok r, w') ->
  truthy (get (config c) "apiKey") = true /\
  truthy (get options "html") || truthy (get options "text") = true /\
  exists response,
    emails_send P (client c) (formatEmailOptions c options) = Resolves response /\
    r = {| id := member (member response "data") "id"; success := true |} /\
    truthy (id r) = true /\
    w' = sent (client c) (formatEmailOptions c options) w.
Proof.
  intros E.
  destruct (sendEmail_cases P c options w) as [[_ H]|[(_ & _ & H)|(K & Hc & H)]];
    rewrite H in E; try discriminate.
  split; [exact K|]. split; [exact Hc|].
  destruct (emails_send P (client c) (formatEmailOptions c options)) as [response|e|];
    try discriminate.
  destruct (usable response) eqn:U; try discriminate.
  inversion E; subst. exists response. repeat split.
  simpl. apply usable_id_truthy, U.
Qed.

Lemma sendEmail_success_means_provider_id_witness :
  truthy (get (config (gateway_of keyed_cfg)) "apiKey") = true /\
  exists response,
    emails_send provider_ok (client (gateway_of keyed_cfg))
      (formatEmailOptions (gateway_of keyed_cfg) hello_call) = Resolves response /\
    member (member response "data") "id" = VString "abc123".
Proof.
  destruct (sendEmail_success_means_provider_id provider_ok (gateway_of keyed_cfg) hello_call
              world0 {| id := VString "abc123"; success := true |}
              (sent (client (gateway_of keyed_cfg))
                    (formatEmailOptions (gateway_of keyed_cfg) hello_call) world0))
    as (K & _ & response & E & R & _).
  - vm_compute. reflexivity.
  - split; [exact K|]. exists response. split; [exact E|].
    inversion R. reflexivity.
Defined.

(** X2. Either send method makes at most one request per call and keeps
    the earlier ones; when it throws, the thrown value is a plain [Error]
    and exactly one line, with the message thrown, is added to the log; when
    it does not throw, the log is as it was. *)
Theorem sends_log_what_they_throw P c (options : obj) w :
  forall send_method,
    send_method = sendEmail P c options \/ send_method = sendTemplateEmail P c options ->
    (exists new, net (snd (send_method w)) = net w ++ new /\ length new <= 1)%nat /\
    match fst (send_method w) with
    | Throw e => exists m, e = Err "Error" m /\
                           log (snd (send_method w)) = log w ++ [error_entry m]
    | _ => log (snd (send_method w)) = log w
    end.
Proof.
  intros send_method [->| ->].
  - destruct (sendEmail_cases P c options w) as [[_ H]|[(_ & _ & H)|(_ & _ & H)]];
      rewrite H; clear H.
    + split; [exists []; rewrite app_nil_r; auto|]. simpl. eauto.
    + split; [exists []; rewrite app_nil_r; auto|]. simpl. eauto.
    + destruct (emails_send P (client c) (formatEmailOptions c options)) as [r|e|];
        [destruct (usable r)|..]; (split; [eexists; split; [reflexivity|simpl; auto]|]);
        simpl; eauto.
  - destruct (sendTemplateEmail_cases P c options w) as [[_ H]|[(_ & _ & H)|(_ & _ & H)]];
      rewrite H; clear H.
    + split; [exists []; rewrite app_nil_r; auto|]. simpl. eauto.
    + split; [exists []; rewrite app_nil_r; auto|]. simpl. eauto.
    + destruct (emails_send P (client c) (template_payload c options)) as [r|e|];
        [destruct (usable r)|..]; (split; [eexists; split; [reflexivity|simpl; auto]|]);
        simpl; eauto.
Qed.

Lemma sends_log_what_they_throw_witness :
  (exists new,
      net (snd (sendEmail provider_ok (gateway_of keyed_cfg) bare_call world0))
      = net world0 ++ new /\ length new <= 1)%nat.
Proof.
  apply (sends_log_what_they_throw provider_ok (gateway_of keyed_cfg) bare_call world0
           (sendEmail provider_ok (gateway_of keyed_cfg) bare_call)).
  left. reflexivity.
Defined.

(** X3. A templated send whose [templateId] is absent (or falsy) fails
    before any request goes out: with the validation error on a configured
    gateway, with the configuration error on one that is not. *)
Theorem sendTemplateEmail_without_template_fails P c (options : obj) w :
  truthy (get options "templateId") = false ->
  fst (sendTemplateEmail P c options w)
  = Throw (Err "Error" ("Failed to send template email: " +:+
                        (if truthy (get (config c) "apiKey")
                         then no_template_msg else not_configured_msg))) /\
  net (snd (sendTemplateEmail P c options w)) = net w.
Proof.
  intros T. destruct (truthy (get (config c) "apiKey")) eqn:K.
  - rewrite (sendTemplateEmail_no_template P c options w K T). split; reflexivity.
  - rewrite (sendTemplateEmail_not_configured P c options w K). split; reflexivity.
Qed.

Lemma sendTemplateEmail_without_template_fails_witness :
  fst (sendTemplateEmail provider_ok (gateway_of keyed_cfg) hello_call world0)
  = Throw (Err "Error" ("Failed to send template email: " +:+ no_template_msg)) /\
  net (snd (sendTemplateEmail provider_ok (gateway_of keyed_cfg) hello_call world0)) = [].
Proof.
  apply (sendTemplateEmail_without_template_fails provider_ok (gateway_of keyed_cfg)
           hello_call world0).
  vm_compute. reflexivity.
Defined.

(** X4. A templated send returns a result only when the gateway is
    configured, the call has a [templateId], and the provider answered with
    an identifier; the result is that identifier with [success] true. *)
Theorem sendTemplateEmail_success_means_provider_id P c (options : obj) w r w' :
  sendTemplateEmail P c options w = (Ok r, w') ->
  truthy (get (config c) "apiKey") = true /\
  truthy (get options "templateId") = true /\
  exists response,
    emails_send P (client c) (template_payload c options) = Resolves response /\
    r = {| id := member (member response "data") "id"; success := true |} /\
    truthy (id r) = true /\
    w' = sent (client c) (template_payload c options) w.
Proof.
  intros E.
  destruct (sendTemplateEmail_cases P c options w) as [[_ H]|[(_ & _ & H)|(K & T & H)]];
    rewrite H in E; try discriminate.
  split; [exact K|]. split; [exact T|].
  destruct (emails_send P (client c) (template_payload c options)) as [response|e|];
    try discriminate.
  destruct (usable response) eqn:U; try discriminate.
  inversion E; subst. exists response. repeat split.
  simpl. apply usable_id_truthy, U.
Qed.

Lemma sendTemplateEmail_success_means_provider_id_witness :
  truthy (get template_call "templateId") = true /\
  exists response,
    emails_send provider_ok (client (gateway_of keyed_cfg))
      (template_payload (gateway_of keyed_cfg) template_call) = Resolves response /\
    member (member response "data") "id" = VString "abc123".
Proof.
  destruct (sendTemplateEmail_success_means_provider_id provider_ok (gateway_of keyed_cfg)
              template_call world0 {| id := VString "abc123"; success := true |}
              (sent (client (gateway_of keyed_cfg))
                    (template_payload (gateway_of keyed_cfg) template_call) world0))
    as (_ & T & response & E & R & _).
  - vm_compute. reflexivity.
  - split; [exact T|]. exists response. split; [exact E|].
    inversion R. reflexivity.
Defined.

(** X5. Whatever a templated send throws is a plain [Error] whose message
    starts with "Failed to send template email: "; after a provider failure
    that is an [Error] the rest is its message, after one that is not it is
    "Unknown error", and after an answer without an identifier it is the
    "No response" text. *)
Theorem sendTemplateEmail_failures_normalized P c (options : obj) w :
  (forall e, fst (sendTemplateEmail P c options w) = Throw e ->
             exists m, e = Err "Error" ("Failed to send template email: " +:+ m)) /\
  (truthy (get (config c) "apiKey") = true ->
   truthy (get options "templateId") = true ->
   match emails_send P (client c) (template_payload c options) with
   | Rejects (Err _ message) =>
       fst (sendTemplateEmail P c options w)
       = Throw (Err "Error" ("Failed to send template email: " +:+ message))
   | Rejects (NonErr _) =>
       fst (sendTemplateEmail P c options w)
       = Throw (Err "Error" "Failed to send template email: Unknown error")
   | Resolves response =>
       usable response = false ->
       fst (sendTemplateEmail P c options w)
       = Throw (Err "Error" ("Failed to send template email: " +:+ no_template_response_msg))
   | NeverSettles => fst (sendTemplateEmail P c options w) = Pending
   end).
Proof.
  split.
  - intros e.
    destruct (sendTemplateEmail_cases P c options w) as [[_ H]|[(_ & _ & H)|(_ & _ & H)]];
      rewrite H; clear H.
    + simpl. intros E; inversion E. eauto.
    + simpl. intros E; inversion E. eauto.
    + destruct (emails_send P (client c) (template_payload c options)) as [r|e0|];
        [destruct (usable r)|..]; simpl; intros E; inversion E; eauto.
  - intros K T. rewrite (sendTemplateEmail_configured P c options w K T). cbv zeta.
    destruct (emails_send P (client c) (template_payload c options)) as [r|[n m|v]|];
      try reflexivity.
    intros U. rewrite U. reflexivity.
Qed.

Lemma sendTemplateEmail_failures_normalized_witness :
  fst (sendTemplateEmail provider_rate_limited (gateway_of keyed_cfg) template_call world0)
  = Throw (Err "Error" "Failed to send template email: rate limit exceeded").
Proof.
  destruct (sendTemplateEmail_failures_normalized provider_rate_limited
              (gateway_of keyed_cfg) template_call world0) as [_ H].
  apply H; vm_compute; reflexivity.
Defined.

(** The keys of the options that the templated payload is built from. *)
Lemma template_payload_agree c (options options' : obj) :
  (forall k, k ∈ ["from"; "to"; "replyTo"; "cc"; "bcc"; "tags"; "templateId"; "templateData"] ->
             options' !! k = options !! k) ->
  template_payload c options' = template_payload c options.
Proof.
  intros A. unfold template_payload.
  rewrite !(get_agree options options') by (apply A; set_solver).
  reflexivity.
Qed.

(** X6. The payload of a templated send takes [from] and [reply_to] from
    the call when truthy and from the configured defaults otherwise, hands on
    [to], [cc], [bcc] and [tags], and has no [attachments] field: it depends
    on no other key of the call, so attachments given with a templated send
    are dropped. *)
Theorem sendTemplateEmail_payload_fields P c (options : obj) w :
  truthy (get (config c) "apiKey") = true ->
  truthy (get options "templateId") = true ->
  exists payload : obj,
    net (snd (sendTemplateEmail P c options w)) = net w ++ [(client c, payload)] /\
    payload !! "from"
    = Some (if truthy (get options "from") then get options "from"
            else get (config c) "defaultFrom") /\
    payload !! "reply_to"
    = Some (if truthy (get options "replyTo") then get options "replyTo"
            else get (config c) "defaultReplyTo") /\
    payload !! "to" = Some (get options "to") /\
    payload !! "cc" = Some (get options "cc") /\
    payload !! "bcc" = Some (get options "bcc") /\
    payload !! "tags" = Some (get options "tags") /\
    payload !! "attachments" = None /\
    (forall v, net (snd (sendTemplateEmail P c (<["attachments" := v]> options) w))
               = net w ++ [(client c, payload)]).
Proof.
  intros K T. exists (template_payload c options).
  split; [rewrite sendTemplateEmail_net, K, T; reflexivity|].
  repeat (split; [vm_compute; reflexivity|]).
  intros v. rewrite sendTemplateEmail_net, K.
  assert (A : forall k, k <> "attachments" ->
                        get (<["attachments" := v]> options) k = get options k).
  { intros k Hk. apply get_agree. apply lookup_insert_ne. congruence. }
  rewrite (A "templateId") by discriminate. rewrite T. simpl.
  rewrite (template_payload_agree c options (<["attachments" := v]> options)); [reflexivity|].
  intros k Hk. apply lookup_insert_ne. intros <-.
  repeat (apply elem_of_cons in Hk as [Hk|Hk]; [discriminate|]). inversion Hk.
Qed.

Lemma sendTemplateEmail_payload_fields_witness :
  exists payload : obj,
    net (snd (sendTemplateEmail provider_ok (gateway_of keyed_cfg) template_call world0))
    = [(client (gateway_of keyed_cfg), payload)] /\
    payload !! "from" = Some (VString "onboarding@resend.dev") /\
    payload !! "attachments" = None.
Proof.
  destruct (sendTemplateEmail_payload_fields provider_ok (gateway_of keyed_cfg)
              template_call world0)
    as (payload & Hn & Hf & _ & _ & _ & _ & _ & Ha & _).
  - vm_compute. reflexivity.
  - vm_compute. reflexivity.
  - exists payload. split; [exact Hn|]. split; [exact Hf|exact Ha].
Defined.

(** X7. The constructor of the client throws what the SDK's constructor
    throws, as it is; otherwise it returns the client for the credential of
    the configuration, every key of the configuration overriding the
    defaults. It makes no request, and it logs a warning exactly when the
    credential is missing or empty. *)
Theorem new_ResendClient_outcome P (cfg : obj) w :
  fst (new_ResendClient P cfg w)
  = match Resend_new P (get cfg "apiKey") with
    | Some e => Throw e
    | None => Ok {| client := {| key := get cfg "apiKey" |}; config := cfg ∪ default_config |}
    end /\
  net (snd (new_ResendClient P cfg w)) = net w /\
  log (snd (new_ResendClient P cfg w))
  = log w ++ (if truthy (get cfg "apiKey") then [] else [warn_entry]) /\
  (forall k v, cfg !! k = Some v -> (cfg ∪ default_config) !! k = Some v).
Proof.
  unfold new_ResendClient, new_Resend. run_eff.
  rewrite get_default_config_apiKey.
  split; [|split; [|split]].
  - destruct (truthy (get cfg "apiKey")); simpl;
      destruct (Resend_new P (get cfg "apiKey")); reflexivity.
  - destruct (truthy (get cfg "apiKey")); simpl;
      destruct (Resend_new P (get cfg "apiKey")); reflexivity.
  - destruct (truthy (get cfg "apiKey")); simpl;
      destruct (Resend_new P (get cfg "apiKey")); simpl; rewrite ?app_nil_r; reflexivity.
  - intros k v H. apply lookup_union_Some_l. exact H.
Qed.

(** ** Further properties of the tool adapter *)

Lemma initializeTools_eq p w :
  initializeTools (p, w) = (Ok tt, (with_registry p (with_manifest_tools (tools p)), w)).
Proof. reflexivity. Qed.

Lemma init_outcome P p w :
  let k := get (resendConfig p) "apiKey" in
  let c := {| client := {| key := k |}; config := resendConfig p ∪ default_config |} in
  exists w',
    init P (p, w)
    = (match Resend_new P k with
       | Some e => Throw (Err "Error" ("Resend plugin initialization failed: " +:+ String_of P e))
       | None =>
           if truthy k then Ok tt
           else Throw (Err "Error" ("Resend plugin initialization failed: Error: "
                                    +:+ not_verified_msg))
       end,
       (match Resend_new P k with
        | Some e => p
        | None =>
            if truthy k
            then with_registry (with_client p c) (with_manifest_tools (tools p))
            else with_client p c
        end, w')) /\
    net w' = net w.
Proof.
  cbv zeta. unfold init, try_catch. rewrite bind_this, bind_liftW.
  unfold new_ResendClient, new_Resend.
  rewrite get_default_config_apiKey.
  destruct (Resend_new P (get (resendConfig p) "apiKey")) as [e|] eqn:N.
  - destruct (truthy (get (resendConfig p) "apiKey")); cbn; eexists; split; reflexivity.
  - destruct (truthy (get (resendConfig p) "apiKey")) eqn:K.
    + cbn -[initializeTools logToolsSummary].
      rewrite get_default_config_apiKey, K.
      unfold throw_if. cbn [negb]. unfold bind. unfold ret at 1.
      match goal with
      | |- context [initializeTools (?q, ?v)] => rewrite (initializeTools_eq q v)
      end.
      cbn. eexists. split; reflexivity.
    + cbn. rewrite get_default_config_apiKey, K. cbn.
      eexists. split; reflexivity.
Qed.

(** *** The registry as a map *)

Lemma Map_has_keys {V} k (m : list (string * V)) :
  Map_has k m = true <-> k ∈ Map_keys m.
Proof.
  unfold Map_has, Map_keys. induction m as [|[k' v'] m IH]; simpl.
  - split; [discriminate|]. intros H. inversion H.
  - rewrite orb_true_iff, IH, elem_of_cons.
    destruct (String.eqb_spec k k'); split; intros [H|H]; auto; try discriminate;
      try contradiction.
Qed.

Lemma Map_keys_set {V} k (v : V) (m : list (string * V)) :
  Map_keys (Map_set k v m) = if Map_has k m then Map_keys m else Map_keys m ++ [k].
Proof.
  unfold Map_has, Map_keys. induction m as [|[k' v'] m IH]; simpl; [reflexivity|].
  destruct (String.eqb_spec k k') as [->|Hne]; simpl; [reflexivity|].
  rewrite IH. destruct (existsb _ m); reflexivity.
Qed.

Lemma Map_set_NoDup {V} k (v : V) (m : list (string * V)) :
  NoDup (Map_keys m) -> NoDup (Map_keys (Map_set k v m)).
Proof.
  intros H. rewrite Map_keys_set. destruct (Map_has k m) eqn:E; [exact H|].
  apply NoDup_app. split; [exact H|]. split; [|apply NoDup_singleton].
  intros x Hx Hk. apply list_elem_of_singleton in Hk. subst x.
  apply Map_has_keys in Hx. congruence.
Qed.

Lemma Map_set_Forall {V} (Q : string * V -> Prop) k (v : V) (m : list (string * V)) :
  Forall Q m -> Q (k, v) -> Forall Q (Map_set k v m).
Proof.
  intros H Hq. induction H as [|[k' v'] m Hx Hm IH]; simpl.
  - constructor; [exact Hq|constructor].
  - destruct (String.eqb k k'); constructor; assumption.
Qed.

Lemma Map_delete_keys {V} k k' (m : list (string * V)) :
  k' ∈ Map_keys (Map_delete k m) -> k' ∈ Map_keys m.
Proof.
  unfold Map_keys. induction m as [|[k0 v0] m IH]; simpl; [auto|].
  destruct (String.eqb k k0); simpl; rewrite !elem_of_cons; intuition.
Qed.

Lemma Map_delete_NoDup {V} k (m : list (string * V)) :
  NoDup (Map_keys m) -> NoDup (Map_keys (Map_delete k m)).
Proof.
  unfold Map_keys. induction m as [|[k0 v0] m IH]; simpl; [auto|].
  intros H. apply NoDup_cons in H as [Hn H].
  destruct (String.eqb k k0); simpl; [exact H|].
  apply NoDup_cons. split; [|apply IH, H].
  intros Hin. apply Hn. apply (Map_delete_keys k). exact Hin.
Qed.

Lemma Map_delete_Forall {V} (Q : string * V -> Prop) k (m : list (string * V)) :
  Forall Q m -> Forall Q (Map_delete k m).
Proof.
  intros H. induction H as [|[k' v'] m Hx Hm IH]; simpl; [constructor|].
  destruct (String.eqb k k'); [exact Hm|constructor; assumption].
Qed.

Lemma Map_get_None {V} k (m : list (string * V)) :
  Map_get k m = None <-> k ∉ Map_keys m.
Proof.
  unfold Map_get, Map_keys. induction m as [|[k' v'] m IH]; simpl.
  - split; [intros _ H; inversion H|reflexivity].
  - rewrite not_elem_of_cons. destruct (String.eqb_spec k k') as [->|Hne]; simpl.
    + split; [discriminate|]. intros [H _]. contradiction.
    + rewrite IH. intuition.
Qed.

Lemma Map_get_delete {V} k (m : list (string * V)) :
  NoDup (Map_keys m) -> Map_get k (Map_delete k m) = None.
Proof.
  intros H. apply Map_get_None. revert H.
  unfold Map_keys. induction m as [|[k' v'] m IH]; simpl; intros H.
  - intros Hin. inversion Hin.
  - apply NoDup_cons in H as [Hn H].
    destruct (String.eqb_spec k k') as [->|Hne]; simpl; [exact Hn|].
    apply not_elem_of_cons. split; [exact Hne|apply IH, H].
Qed.

Lemma Map_get_set_ne {V} k k' (v : V) (m : list (string * V)) :
  k' <> k -> Map_get k' (Map_set k v m) = Map_get k' m.
Proof.
  intros Hne. unfold Map_get. induction m as [|[k0 v0] m IH]; simpl.
  - destruct (String.eqb_spec k' k); [contradiction|reflexivity].
  - destruct (String.eqb_spec k k0) as [->|Hk]; simpl.
    + destruct (String.eqb_spec k' k0); [contradiction|reflexivity].
    + destruct (String.eqb_spec k' k0); [reflexivity|exact IH].
Qed.

Lemma Map_get_delete_ne {V} k k' (m : list (string * V)) :
  k' <> k -> Map_get k' (Map_delete k m) = Map_get k' m.
Proof.
  intros Hne. unfold Map_get. induction m as [|[k0 v0] m IH]; simpl; [reflexivity|].
  destruct (String.eqb_spec k k0) as [->|Hk]; simpl.
  - destruct (String.eqb_spec k' k0); [contradiction|reflexivity].
  - destruct (String.eqb_spec k' k0); [reflexivity|exact IH].
Qed.

Lemma Map_delete_absent {V} k (m : list (string * V)) :
  k ∉ Map_keys m -> Map_delete k m = m.
Proof.
  unfold Map_keys. induction m as [|[k' v'] m IH]; simpl; [reflexivity|].
  intros H. apply not_elem_of_cons in H as [Hne H].
  destruct (String.eqb_spec k k'); [contradiction|]. rewrite (IH H). reflexivity.
Qed.

(** Looking a tool up by its name among the values finds the entry under
    that key, when every key is the name of its tool. *)
Lemma find_by_name_is_Map_get n (m : list (string * Plugin)) :
  Forall (fun e => fst e = name (snd e)) m ->
  List.find (fun tool => String.eqb (name tool) n) (Map_values m) = Map_get n m.
Proof.
  unfold Map_get, Map_values. induction 1 as [|[k t] m Hk _ IH]; simpl; [reflexivity|].
  simpl in Hk. subst k. rewrite (String.eqb_sym n (name t)).
  destruct (String.eqb (name t) n); [reflexivity|exact IH].
Qed.

Lemma registry_ok_set p (t : Plugin) :
  registry_ok p -> registry_ok (with_registry p (Map_set (name t) t (tools p))).
Proof.
  intros (Hn & Hf & _). split; [|split]; simpl.
  - apply Map_set_NoDup, Hn.
  - apply Map_set_Forall; [exact Hf|reflexivity].
  - reflexivity.
Qed.

Lemma registry_ok_delete p n :
  registry_ok p -> registry_ok (with_registry p (Map_delete n (tools p))).
Proof.
  intros (Hn & Hf & _). split; [|split]; simpl.
  - apply Map_delete_NoDup, Hn.
  - apply Map_delete_Forall, Hf.
  - reflexivity.
Qed.

Lemma registry_ok_manifests p :
  NoDup (Map_keys (tools p)) ->
  Forall (fun e => fst e = name (snd e)) (tools p) ->
  registry_ok (with_registry p (with_manifest_tools (tools p))).
Proof.
  intros Hn Hf. split; [|split]; simpl; [| |reflexivity].
  - unfold with_manifest_tools. simpl. repeat apply Map_set_NoDup. exact Hn.
  - unfold with_manifest_tools. simpl.
    repeat (apply Map_set_Forall; [|reflexivity]). exact Hf.
Qed.

(** *** Methods that leave the plugin as it is *)

Lemma stable_ret {A X} (f : ResendPlugin * World -> X) (a : A) : stable f (ret a).
Proof. intros s. reflexivity. Qed.

Lemma stable_throw {A X} (f : ResendPlugin * World -> X) e : stable f (throw (A:=A) e).
Proof. intros s. reflexivity. Qed.

Lemma stable_throw_if {X} (f : ResendPlugin * World -> X) b e : stable f (throw_if b e).
Proof. destruct b; [apply stable_throw|apply stable_ret]. Qed.

Lemma stable_this {X} (f : ResendPlugin * World -> X) : stable f this.
Proof. intros s. reflexivity. Qed.

Lemma stable_bind {A B X} (f : ResendPlugin * World -> X) (m : PM A) (k : A -> PM B) :
  stable f m -> (forall a, stable f (k a)) -> stable f (bind m k).
Proof.
  intros Hm Hk s. unfold bind. specialize (Hm s).
  destruct (m s) as [[a|e|] s']; simpl in *; try assumption.
  rewrite (Hk a s'). assumption.
Qed.

Lemma stable_try_catch {A X} (f : ResendPlugin * World -> X) (m : PM A) h :
  stable f m -> (forall e, stable f (h e)) -> stable f (try_catch m h).
Proof.
  intros Hm Hh s. unfold try_catch. specialize (Hm s).
  destruct (m s) as [[a|e|] s']; simpl in *; try assumption.
  rewrite (Hh e s'). assumption.
Qed.

Lemma stable_liftW_plugin {A} (m : M A) : stable fst (liftW m).
Proof. intros [p w]. unfold liftW. simpl. destruct (m w). reflexivity. Qed.

Lemma stable_logger_net lv t d : stable (fun s => net (snd s)) (liftW (logger lv t d)).
Proof. intros [p w]. reflexivity. Qed.

Ltac stable_step :=
  first [ apply stable_ret | apply stable_throw | apply stable_throw_if | apply stable_this
        | apply stable_liftW_plugin | apply stable_logger_net
        | apply stable_bind; [|intros ?]
        | apply stable_try_catch; [|intros ?] ].

Lemma plugin_sendEmail_stable P params : stable fst (plugin_sendEmail P params).
Proof.
  unfold plugin_sendEmail. apply stable_bind; [apply stable_this|]. intros p.
  destruct (pclient p); repeat stable_step.
Qed.

Lemma plugin_sendTemplateEmail_stable P params :
  stable fst (plugin_sendTemplateEmail P params).
Proof.
  unfold plugin_sendTemplateEmail. apply stable_bind; [apply stable_this|]. intros p.
  destruct (pclient p); repeat stable_step.
Qed.

Lemma execute_manifest_stable P manifest params :
  stable fst (execute_manifest P manifest params).
Proof.
  unfold execute_manifest. apply stable_bind; [apply stable_this|]. intros p.
  apply stable_bind; [apply stable_throw_if|]. intros _.
  apply stable_try_catch.
  - destruct (String.eqb _ "send_email"); [apply plugin_sendEmail_stable|].
    destruct (String.eqb _ "send_template_email");
      [apply plugin_sendTemplateEmail_stable|apply stable_throw].
  - intros e. apply stable_bind; [apply stable_liftW_plugin|]. intros _.
    destruct e; apply stable_throw.
Qed.

Lemma debugPluginInterface_loop_stable ts : stable fst (debugPluginInterface_loop ts).
Proof. induction ts as [|t ts IH]; simpl; repeat stable_step. exact IH. Qed.

(** What an operation does to the fields of the plugin. *)
Lemma run_plugin P o p w :
  fst (run P o (p, w))
  = match o with
    | CallInit => fst (snd (init P (p, w)))
    | CallRegisterTool t => with_registry p (Map_set (name t) t (tools p))
    | CallRemoveTool n => with_registry p (Map_delete n (tools p))
    | _ => p
    end.
Proof.
  destruct o; simpl; try reflexivity.
  - apply (execute_manifest_stable P manifest params (p, w)).
  - apply (plugin_sendEmail_stable P params (p, w)).
  - apply (plugin_sendTemplateEmail_stable P params (p, w)).
Qed.

Lemma init_plugin P p w :
  fst (snd (init P (p, w)))
  = match Resend_new P (get (resendConfig p) "apiKey") with
    | Some e => p
    | None =>
        let c := {| client := {| key := get (resendConfig p) "apiKey" |};
                    config := resendConfig p ∪ default_config |} in
        if truthy (get (resendConfig p) "apiKey")
        then with_registry (with_client p c) (with_manifest_tools (tools p))
        else with_client p c
    end.
Proof.
  destruct (init_outcome P p w) as (w' & E & _). cbv zeta in E. rewrite E. reflexivity.
Qed.

Lemma run_registry_ok P o s : registry_ok (fst s) -> registry_ok (fst (run P o s)).
Proof.
  destruct s as [p w]. intros H. rewrite run_plugin. simpl in H.
  destruct o; try exact H.
  - rewrite init_plugin. destruct (Resend_new P _); [exact H|].
    cbv zeta. destruct (truthy _).
    + destruct H as (Hn & Hf & _). apply (registry_ok_manifests (with_client p _) Hn Hf).
    + exact H.
  - apply registry_ok_set, H.
  - apply registry_ok_delete, H.
Qed.

Lemma new_ResendPlugin_eq env cfg s0 :
  new_ResendPlugin env cfg s0
  = (Ok tt,
     (with_registry
        {| pclient := None;
           resendConfig := match cfg with
                           | Some c => c
                           | None => list_to_map
                                       [ ("apiKey", get env "RESEND_API_KEY");
                                         ("defaultFrom", get env "RESEND_DEFAULT_FROM");
                                         ("defaultReplyTo", get env "RESEND_DEFAULT_REPLY_TO") ]
                           end;
           tools := []; config_tools := [] |}
        manifest_tools,
      snd s0)).
Proof. destruct s0 as [p0 w0]. reflexivity. Qed.

Lemma reachable_registry P s : reachable P s -> registry_ok (fst s).
Proof.
  induction 1 as [env cfg s0|o s _ IH].
  - rewrite new_ResendPlugin_eq. simpl. split; [|split]; [| |reflexivity].
    + vm_compute. repeat constructor; intros H;
        repeat (apply elem_of_cons in H as [H|H]; [discriminate|]); inversion H.
    + repeat constructor.
  - apply run_registry_ok, IH.
Qed.

(** X11. In every state a plugin can reach, the registry has one entry per
    name, each entry is kept under the name of its tool, and the list
    [config.tools] handed to the host is the list of the registry's values. *)
Theorem reachable_registry_ok P s :
  reachable P s -> registry_ok (fst s).
Proof. apply reachable_registry. Qed.

Lemma reachable_registry_ok_witness :
  config_tools (fst after_init) = Map_values (tools (fst after_init)) /\
  NoDup (Map_keys (tools (fst after_init))).
Proof.
  destruct (reachable_registry_ok provider_ok after_init) as (Hn & _ & Hc).
  - apply reach_run. apply reach_new.
  - split; [exact Hc|exact Hn].
Defined.

Lemma init_result P p w :
  fst (init P (p, w)) = Ok tt <->
  Resend_new P (get (resendConfig p) "apiKey") = None /\
  truthy (get (resendConfig p) "apiKey") = true.
Proof.
  destruct (init_outcome P p w) as (w' & E & _). cbv zeta in E. rewrite E. simpl.
  destruct (Resend_new P _) as [e|]; [split; [discriminate|intros [? _]; discriminate]|].
  destruct (truthy _); split; auto; try discriminate. intros [_ ?]. discriminate.
Qed.

(** X10. [init] succeeds exactly when the SDK's constructor accepts the
    credential and the credential is truthy, and the plugin is then
    Initialized. When the SDK's constructor throws, [init] fails with
    "Resend plugin initialization failed: " followed by the thrown value as
    a string, and the plugin is as it was. [init] never makes a request. *)
Theorem init_outcomes P p w :
  let k := get (resendConfig p) "apiKey" in
  (fst (init P (p, w)) = Ok tt <-> Resend_new P k = None /\ truthy k = true) /\
  (fst (init P (p, w)) = Ok tt -> Initialized (fst (snd (init P (p, w))))) /\
  (forall e, Resend_new P k = Some e ->
             fst (init P (p, w))
             = Throw (Err "Error" ("Resend plugin initialization failed: " +:+ String_of P e)) /\
             fst (snd (init P (p, w))) = p) /\
  net (snd (snd (init P (p, w)))) = net w.
Proof.
  cbv zeta. destruct (init_outcome P p w) as (w' & E & Hn). cbv zeta in E.
  rewrite E. simpl. split; [|split; [|split]].
  - destruct (Resend_new P _) as [e|]; [split; [discriminate|intros [? _]; discriminate]|].
    destruct (truthy _); split; auto; try discriminate. intros [_ ?]. discriminate.
  - destruct (Resend_new P _) as [e|]; [discriminate|].
    destruct (truthy (get (resendConfig p) "apiKey")) eqn:K; [|discriminate].
    intros _. eexists. split; [reflexivity|]. simpl.
    rewrite get_default_config_apiKey. exact K.
  - intros e He. rewrite He. split; reflexivity.
  - exact Hn.
Qed.

Lemma init_outcomes_witness :
  fst (init provider_auth_error (fst (constructed keyed_cfg), snd (constructed keyed_cfg)))
  = Throw (Err "Error" "Resend plugin initialization failed: Error: bad key") /\
  pclient (fst (snd (init provider_auth_error
                       (fst (constructed keyed_cfg), snd (constructed keyed_cfg))))) = None.
Proof.
  destruct (init_outcomes provider_auth_error (fst (constructed keyed_cfg))
              (snd (constructed keyed_cfg))) as (_ & _ & H & _).
  destruct (H (Err "AuthError" "bad key")) as [H1 H2].
  - reflexivity.
  - split; [exact H1|]. rewrite H2. reflexivity.
Defined.

(** X12. After [registerTool(t)], [getTool] finds [t] under its name and
    what it found before under every other name. On a reachable plugin,
    after [removeTool(k)], [getTool(k)] finds nothing and every other name
    is as before; [removeTool(k)] returns whether a tool was registered under
    [k], and when none was the registry is unchanged. *)
Theorem registry_lookup_after_update P s :
  reachable P s ->
  (forall t n,
      fst (getTool n (snd (registerTool t s)))
      = if String.eqb n (name t) then Ok (Some t) else fst (getTool n s)) /\
  (forall k n,
      fst (getTool n (snd (removeTool k s)))
      = if String.eqb n k then Ok None else fst (getTool n s)) /\
  (forall k,
      fst (removeTool k s)
      = Ok (if fst (getTool k s) is Ok (Some _) then true else false)) /\
  (forall k, fst (getTool k s) = Ok None -> tools (fst (snd (removeTool k s))) = tools (fst s)).
Proof.
  intros Hr. destruct (reachable_registry P s Hr) as (Hn & _ & _).
  destruct s as [p w]. cbn -[Map_get Map_set Map_delete Map_has Map_values] in *.
  split; [|split; [|split]].
  - intros t n. destruct (String.eqb_spec n (name t)) as [->|Hne].
    + rewrite Map_get_set. reflexivity.
    + rewrite (Map_get_set_ne _ _ _ _ Hne). reflexivity.
  - intros k n. destruct (String.eqb_spec n k) as [->|Hne].
    + rewrite (Map_get_delete _ _ Hn). reflexivity.
    + rewrite (Map_get_delete_ne _ _ _ Hne). reflexivity.
  - intros k. f_equal. destruct (Map_get k (tools p)) eqn:E.
    + apply Map_has_keys. destruct (decide (k ∈ Map_keys (tools p))) as [H|H]; [exact H|].
      apply Map_get_None in H. congruence.
    + apply Map_get_None in E. destruct (Map_has k (tools p)) eqn:F; [|reflexivity].
      apply Map_has_keys in F. contradiction.
  - intros k E. inversion E as [E']. apply Map_get_None in E'.
    apply Map_delete_absent, E'.
Qed.

Lemma registry_lookup_after_update_witness :
  fst (getTool "resend_send_email" (snd (removeTool "resend_send_email" after_init)))
  = Ok None /\
  fst (getTool "ping" (snd (registerTool ping_tool after_init))) = Ok (Some ping_tool).
Proof.
  destruct (registry_lookup_after_update provider_ok after_init) as (H1 & H2 & _).
  - apply reach_run. apply reach_new.
  - split.
    + apply (H2 "resend_send_email" "resend_send_email").
    + apply (H1 ping_tool "ping").
Defined.

(** X13. On a reachable plugin [getToolByFullName] finds the same tool as
    [getTool], and neither changes the plugin or the world. *)
Theorem getToolByFullName_is_getTool P s n :
  reachable P s ->
  getToolByFullName n s = getTool n s /\ snd (getTool n s) = s.
Proof.
  intros Hr. destruct (reachable_registry P s Hr) as (_ & Hf & _).
  destruct s as [p w]. cbn -[Map_get Map_values] in *.
  rewrite (find_by_name_is_Map_get n (tools p) Hf). split; reflexivity.
Qed.

Lemma getToolByFullName_is_getTool_witness :
  getToolByFullName "resend_send_email" after_init = getTool "resend_send_email" after_init.
Proof.
  apply (getToolByFullName_is_getTool provider_ok after_init "resend_send_email").
  apply reach_run. apply reach_new.
Defined.

Lemma manifest_tools_shape :
  exists t1 t2,
    manifest_tools = [("resend_send_email", t1); ("resend_send_template_email", t2)] /\
    name t1 = "resend_send_email" /\ name t2 = "resend_send_template_email" /\
    execute t1 = ManifestExecute "resend_send_email" /\
    execute t2 = ManifestExecute "resend_send_template_email".
Proof. eexists _, _. repeat split. Qed.

Lemma Map_get_with_manifest_tools n (m : list (string * Plugin)) :
  Map_get n (with_manifest_tools m)
  = match Map_get n manifest_tools with
    | Some t => Some t
    | None => Map_get n m
    end.
Proof.
  unfold with_manifest_tools.
  destruct manifest_tools_shape as (t1 & t2 & -> & _). simpl.
  destruct (String.eqb_spec n "resend_send_template_email") as [->|H2].
  - rewrite Map_get_set. reflexivity.
  - rewrite (Map_get_set_ne _ _ _ _ H2).
    destruct (String.eqb_spec n "resend_send_email") as [->|H1].
    + rewrite Map_get_set. reflexivity.
    + rewrite (Map_get_set_ne _ _ _ _ H1).
      assert (E : Map_get n [("resend_send_email", t1); ("resend_send_template_email", t2)]
                  = None).
      { apply Map_get_None. simpl. intros H.
        repeat (apply elem_of_cons in H as [H|H]; [contradiction|]). inversion H. }
      rewrite E. reflexivity.
Qed.

(** X14. A successful [init] puts the tools of the two manifests back under
    their names, replacing whatever the host registered there, and leaves
    every other tool of the registry in place; an [init] that fails leaves
    the registry as it was. *)
Theorem init_registry_effect P p w :
  (fst (init P (p, w)) = Ok tt ->
   forall n,
     Map_get n (tools (fst (snd (init P (p, w)))))
     = match Map_get n manifest_tools with
       | Some t => Some t
       | None => Map_get n (tools p)
       end) /\
  (fst (init P (p, w)) <> Ok tt ->
   tools (fst (snd (init P (p, w)))) = tools p /\
   config_tools (fst (snd (init P (p, w)))) = config_tools p).
Proof.
  pose proof (init_result P p w) as Hiff.
  rewrite init_plugin. split.
  - intros H. apply Hiff in H as [-> ->]. cbv zeta. simpl.
    intros n. apply Map_get_with_manifest_tools.
  - intros H. destruct (Resend_new P _) as [e|]; [split; reflexivity|].
    cbv zeta. destruct (truthy _); [|split; reflexivity].
    exfalso. apply H, Hiff. split; reflexivity.
Qed.

Lemma init_registry_effect_witness :
  Map_get "ping" (tools (fst (snd (init provider_ok (fst crowded, snd crowded)))))
  = Some ping_tool /\
  execute <$> Map_get "resend_send_email"
                (tools (fst (snd (init provider_ok (fst crowded, snd crowded)))))
  = Some (ManifestExecute "resend_send_email").
Proof.
  destruct (init_registry_effect provider_ok (fst crowded) (snd crowded)) as [H _].
  assert (Hok : fst (init provider_ok (fst crowded, snd crowded)) = Ok tt)
    by (vm_compute; reflexivity).
  split.
  - rewrite (H Hok "ping"). vm_compute. reflexivity.
  - rewrite (H Hok "resend_send_email"). vm_compute. reflexivity.
Defined.

(** X8. The constructor always returns: the client is absent, the registry
    holds the tools of the two manifests under their names, in the order of
    the manifests, the derived list is in step, and the world is untouched,
    whatever the fields held before. Without a configuration object the
    configuration has the keys [apiKey], [defaultFrom] and [defaultReplyTo],
    each with the value of its environment variable, undefined when unset. *)
Theorem new_ResendPlugin_outcome env cfg s0 :
  let s := snd (new_ResendPlugin env cfg s0) in
  fst (new_ResendPlugin env cfg s0) = Ok tt /\
  pclient (fst s) = None /\
  Map_keys (tools (fst s)) = ["resend_send_email"; "resend_send_template_email"] /\
  config_tools (fst s) = Map_values (tools (fst s)) /\
  snd s = snd s0 /\
  (forall c, cfg = Some c -> resendConfig (fst s) = c) /\
  (cfg = None ->
   resendConfig (fst s) !! "apiKey" = Some (get env "RESEND_API_KEY") /\
   resendConfig (fst s) !! "defaultFrom" = Some (get env "RESEND_DEFAULT_FROM") /\
   resendConfig (fst s) !! "defaultReplyTo" = Some (get env "RESEND_DEFAULT_REPLY_TO")).
Proof.
  cbv zeta. rewrite new_ResendPlugin_eq. simpl.
  repeat split.
  - intros c ->. reflexivity.
  - subst cfg. vm_compute. reflexivity.
  - subst cfg. vm_compute. reflexivity.
  - subst cfg. vm_compute. reflexivity.
Qed.

(** X9. A plugin constructed without a configuration object and then
    initialized takes its default sender from the environment alone: the
    client's [defaultFrom] is the value of RESEND_DEFAULT_FROM, undefined
    when the variable is unset, and the payload of a send without an
    explicit [from] carries that value; the hard-coded
    'onboarding@resend.dev' is not used. *)
Theorem env_plugin_default_sender P env s0 :
  truthy (get env "RESEND_API_KEY") = true ->
  Resend_new P (get env "RESEND_API_KEY") = None ->
  let s := run P CallInit (snd (new_ResendPlugin env None s0)) in
  exists c,
    pclient (fst s) = Some c /\
    truthy (get (config c) "apiKey") = true /\
    get (config c) "defaultFrom" = get env "RESEND_DEFAULT_FROM" /\
    (env !! "RESEND_DEFAULT_FROM" = None -> get (config c) "defaultFrom" = VUndefined) /\
    forall options : obj,
      truthy (get options "from") = false ->
      formatEmailOptions c options !! "from" = Some (get env "RESEND_DEFAULT_FROM").
Proof.
  intros K N. cbv zeta. rewrite new_ResendPlugin_eq.
  unfold run. cbn [fst snd]. rewrite init_plugin. cbn [with_registry resendConfig fst snd].
  set (cfg := list_to_map [ ("apiKey", get env "RESEND_API_KEY");
                            ("defaultFrom", get env "RESEND_DEFAULT_FROM");
                            ("defaultReplyTo", get env "RESEND_DEFAULT_REPLY_TO") ] : obj).
  assert (Ha : get cfg "apiKey" = get env "RESEND_API_KEY") by (vm_compute; reflexivity).
  assert (Hd : cfg !! "defaultFrom" = Some (get env "RESEND_DEFAULT_FROM"))
    by (vm_compute; reflexivity).
  rewrite Ha, N, K. cbv zeta.
  eexists. split; [reflexivity|]. cbn [config with_client].
  assert (D : get (cfg ∪ default_config) "defaultFrom" = get env "RESEND_DEFAULT_FROM").
  { rewrite get_union_default, Hd. reflexivity. }
  split; [rewrite get_default_config_apiKey, Ha; exact K|].
  split; [exact D|]. split.
  - intros E. rewrite D. unfold get. rewrite E. reflexivity.
  - intros options Hf.
    transitivity (Some (js_or (get options "from") (get (cfg ∪ default_config) "defaultFrom"))).
    + generalize (cfg ∪ default_config). intros o. vm_compute. reflexivity.
    + unfold js_or. rewrite Hf, D. reflexivity.
Qed.

Lemma env_plugin_default_sender_witness :
  exists c,
    pclient (fst (run provider_ok CallInit
                    (snd (new_ResendPlugin {[ "RESEND_API_KEY" := VString "re_123" ]} None
                            (blank_plugin, world0))))) = Some c /\
    get (config c) "defaultFrom" = VUndefined.
Proof.
  destruct (env_plugin_default_sender provider_ok {[ "RESEND_API_KEY" := VString "re_123" ]}
              (blank_plugin, world0)) as (c & Hc & _ & _ & Hu & _).
  - vm_compute. reflexivity.
  - reflexivity.
  - exists c. split; [exact Hc|]. apply Hu. vm_compute. reflexivity.
Defined.

(** *** Sends through the adapter *)

Lemma sendEmail_throws_prefixed P c (options : obj) w e :
  fst (sendEmail P c options w) = Throw e ->
  exists m, e = Err "Error" ("Failed to send email: " +:+ m).
Proof.
  destruct (sendEmail_cases P c options w) as [[_ H]|[(_ & _ & H)|(_ & _ & H)]];
    rewrite H; clear H.
  - simpl. intros E; inversion E. eauto.
  - simpl. intros E; inversion E. eauto.
  - destruct (emails_send P (client c) (formatEmailOptions c options)) as [r|e0|];
      [destruct (usable r)|..]; simpl; intros E; inversion E; eauto.
Qed.

Lemma sendTemplateEmail_throws_prefixed P c (options : obj) w e :
  fst (sendTemplateEmail P c options w) = Throw e ->
  exists m, e = Err "Error" ("Failed to send template email: " +:+ m).
Proof.
  destruct (sendTemplateEmail_cases P c options w) as [[_ H]|[(_ & _ & H)|(_ & _ & H)]];
    rewrite H; clear H.
  - simpl. intros E; inversion E. eauto.
  - simpl. intros E; inversion E. eauto.
  - destruct (emails_send P (client c) (template_payload c options)) as [r|e0|];
      [destruct (usable r)|..]; simpl; intros E; inversion E; eauto.
Qed.

(** The plugin's [sendEmail] is the client's on the options it builds, with
    a failure logged and prefixed once more. *)
Lemma plugin_sendEmail_eq P params p w c :
  pclient p = Some c ->
  plugin_sendEmail P params (p, w)
  = match sendEmail P c (email_options params) w with
    | (Ok r, w') => (Ok r, (p, w'))
    | (Throw e, w') =>
        (Throw (Err "Error" ("Failed to send email: " +:+ message_or_String P e)),
         (p, log_error ("Failed to send email: " +:+ message_or_String P e) w'))
    | (Pending, w') => (Pending, (p, w'))
    end.
Proof.
  intros Hc. unfold plugin_sendEmail. rewrite bind_this, Hc.
  fold (email_options params). unfold try_catch, liftW. cbn -[sendEmail email_options].
  destruct (sendEmail P c (email_options params) w) as [[r|e|] w']; reflexivity.
Qed.

Lemma plugin_sendTemplateEmail_eq P params p w c :
  pclient p = Some c ->
  plugin_sendTemplateEmail P params (p, w)
  = match sendTemplateEmail P c (template_options params) w with
    | (Ok r, w') => (Ok r, (p, w'))
    | (Throw e, w') =>
        (Throw (Err "Error" ("Failed to send template email: " +:+ message_or_String P e)),
         (p, log_error ("Failed to send template email: " +:+ message_or_String P e) w'))
    | (Pending, w') => (Pending, (p, w'))
    end.
Proof.
  intros Hc. unfold plugin_sendTemplateEmail. rewrite bind_this, Hc.
  fold (template_options params). unfold try_catch, liftW.
  cbn -[sendTemplateEmail template_options].
  destruct (sendTemplateEmail P c (template_options params) w) as [[r|e|] w']; reflexivity.
Qed.

(** The closure of a manifest tool, once the client is there: the method
    chosen by the name, with a failure logged once more and thrown again. *)
Lemma execute_manifest_eq P manifest params p w c :
  pclient p = Some c ->
  execute_manifest P manifest params (p, w)
  = let methodName := String_replace "resend_" "" manifest in
    let method :=
      if String.eqb methodName "send_email" then plugin_sendEmail P params
      else if String.eqb methodName "send_template_email" then plugin_sendTemplateEmail P params
      else throw (Err "Error" ("Unknown method: " +:+ methodName)) in
    match method (p, w) with
    | (Throw (Err n m), (p', w')) =>
        (Throw (Err n m),
         (p', {| net := net w';
                 log := log w' ++ [{| level := LError;
                                      text := "Error executing tool " +:+ manifest +:+ ":";
                                      detail := Some (Err n m) |}] |}))
    | (Throw (NonErr v), (p', w')) =>
        (Throw (Err "Error" ("Error executing " +:+ methodName +:+ ": "
                             +:+ String_of P (NonErr v))),
         (p', {| net := net w';
                 log := log w' ++ [{| level := LError;
                                      text := "Error executing tool " +:+ manifest +:+ ":";
                                      detail := Some (NonErr v) |}] |}))
    | r => r
    end.
Proof.
  intros Hc. unfold execute_manifest. rewrite bind_this, Hc. cbv zeta.
  unfold throw_if, bind at 1, ret at 1, try_catch.
  match goal with
  | |- context [(if ?a then ?x else if ?b then ?y else ?z) (p, w)] =>
      destruct ((if a then x else if b then y else z) (p, w)) as [[r|[n m|v]|] [p' w']]
  end; reflexivity.
Qed.

Lemma execute_manifest_methods P params p w c :
  pclient p = Some c ->
  (fst (execute_manifest P "resend_send_email" params (p, w))
   = fst (plugin_sendEmail P params (p, w)) /\
   net (snd (snd (execute_manifest P "resend_send_email" params (p, w))))
   = net (snd (sendEmail P c (email_options params) w)) /\
   (forall r, fst (execute_manifest P "resend_send_email" params (p, w)) = Ok r <->
              fst (sendEmail P c (email_options params) w) = Ok r) /\
   (forall e, fst (execute_manifest P "resend_send_email" params (p, w)) = Throw e ->
              exists m, e = Err "Error" ("Failed to send email: Failed to send email: " +:+ m))) /\
  (fst (execute_manifest P "resend_send_template_email" params (p, w))
   = fst (plugin_sendTemplateEmail P params (p, w)) /\
   net (snd (snd (execute_manifest P "resend_send_template_email" params (p, w))))
   = net (snd (sendTemplateEmail P c (template_options params) w)) /\
   (forall r, fst (execute_manifest P "resend_send_template_email" params (p, w)) = Ok r <->
              fst (sendTemplateEmail P c (template_options params) w) = Ok r) /\
   (forall e, fst (execute_manifest P "resend_send_template_email" params (p, w)) = Throw e ->
              exists m, e = Err "Error" ("Failed to send template email: Failed to send template email: " +:+ m))).
Proof.
  intros Hc. split.
  - rewrite (execute_manifest_eq P _ params p w c Hc). cbv zeta.
    change (String_replace "resend_" "" "resend_send_email") with "send_email".
    cbn [String.eqb Ascii.eqb Bool.eqb].
    rewrite (plugin_sendEmail_eq P params p w c Hc).
    pose proof (sendEmail_throws_prefixed P c (email_options params) w) as Hp.
    destruct (sendEmail P c (email_options params) w) as [[r|e|] w']; simpl in *.
    + repeat split; try congruence; discriminate.
    + destruct (Hp e eq_refl) as (m & ->). simpl.
      repeat split; try discriminate. intros e E. inversion E. eauto.
    + repeat split; try congruence; discriminate.
  - rewrite (execute_manifest_eq P _ params p w c Hc). cbv zeta.
    change (String_replace "resend_" "" "resend_send_template_email")
      with "send_template_email".
    cbn [String.eqb Ascii.eqb Bool.eqb].
    rewrite (plugin_sendTemplateEmail_eq P params p w c Hc).
    pose proof (sendTemplateEmail_throws_prefixed P c (template_options params) w) as Hp.
    destruct (sendTemplateEmail P c (template_options params) w) as [[r|e|] w']; simpl in *.
    + repeat split; try congruence; discriminate.
    + destruct (Hp e eq_refl) as (m & ->). simpl.
      repeat split; try discriminate. intros e E. inversion E. eauto.
    + repeat split; try congruence; discriminate.
Qed.


(** X16. With the client present, the tool [resend_send_email] ends as the
    plugin's [sendEmail] does and [resend_send_template_email] as
    [sendTemplateEmail]: the same result or the same error, the same
    requests. It returns a result exactly when the gateway does, and an
    error it throws is a plain [Error] that carries the prefix of the
    operation twice, once from the gateway and once from the plugin. *)
Theorem tool_execution_is_the_method P params p w c :
  pclient p = Some c ->
  (fst (execute_manifest P "resend_send_email" params (p, w))
   = fst (plugin_sendEmail P params (p, w)) /\
   net (snd (snd (execute_manifest P "resend_send_email" params (p, w))))
   = net (snd (sendEmail P c (email_options params) w)) /\
   (forall r, fst (execute_manifest P "resend_send_email" params (p, w)) = Ok r <->
              fst (sendEmail P c (email_options params) w) = Ok r) /\
   (forall e, fst (execute_manifest P "resend_send_email" params (p, w)) = Throw e ->
              exists m, e = Err "Error" ("Failed to send email: Failed to send email: " +:+ m))) /\
  (fst (execute_manifest P "resend_send_template_email" params (p, w))
   = fst (plugin_sendTemplateEmail P params (p, w)) /\
   net (snd (snd (execute_manifest P "resend_send_template_email" params (p, w))))
   = net (snd (sendTemplateEmail P c (template_options params) w)) /\
   (forall r, fst (execute_manifest P "resend_send_template_email" params (p, w)) = Ok r <->
              fst (sendTemplateEmail P c (template_options params) w) = Ok r) /\
   (forall e, fst (execute_manifest P "resend_send_template_email" params (p, w)) = Throw e ->
              exists m, e = Err "Error" ("Failed to send template email: Failed to send template email: " +:+ m))).
Proof. exact (execute_manifest_methods P params p w c). Qed.

Lemma tool_execution_is_the_method_witness :
  fst (execute_manifest provider_ok "resend_send_email" hello_call
         (fst after_init, snd after_init))
  = fst (plugin_sendEmail provider_ok hello_call (fst after_init, snd after_init)).
Proof.
  destruct (tool_execution_is_the_method provider_ok hello_call (fst after_init)
              (snd after_init) (gateway_of keyed_cfg)) as [(H & _) _].
  - vm_compute. reflexivity.
  - exact H.
Defined.

(** X15. A send through the tool [resend_send_email] hands the gateway
    only [to], [subject], [html], [text], [from], [replyTo], [cc] and [bcc]
    of the parameters: on a configured client, with content, one request
    goes out, its payload built from these, and its [attachments] and [tags]
    are undefined whatever the parameters hold under those names. *)
Theorem tool_send_drops_attachments_and_tags P params p w c :
  pclient p = Some c ->
  truthy (get (config c) "apiKey") = true ->
  truthy (get params "html") || truthy (get params "text") = true ->
  exists payload : obj,
    net (snd (snd (execute_manifest P "resend_send_email" params (p, w))))
    = net w ++ [(client c, payload)] /\
    payload !! "to" = Some (get params "to") /\
    payload !! "subject" = Some (get params "subject") /\
    payload !! "html" = Some (get params "html") /\
    payload !! "text" = Some (get params "text") /\
    payload !! "cc" = Some (get params "cc") /\
    payload !! "bcc" = Some (get params "bcc") /\
    payload !! "from" = Some (js_or (get params "from") (get (config c) "defaultFrom")) /\
    payload !! "reply_to"
    = Some (js_or (get params "replyTo") (get (config c) "defaultReplyTo")) /\
    payload !! "attachments" = Some VUndefined /\
    payload !! "tags" = Some VUndefined.
Proof.
  intros Hc K Hct. exists (formatEmailOptions c (email_options params)).
  split.
  - destruct (execute_manifest_methods P params p w c Hc) as [(_ & Hn & _) _].
    rewrite Hn. apply sendEmail_configured_net; [exact K|].
    replace (get (email_options params) "html") with (get params "html")
      by (vm_compute; reflexivity).
    replace (get (email_options params) "text") with (get params "text")
      by (vm_compute; reflexivity).
    exact Hct.
  - repeat split; vm_compute; reflexivity.
Qed.

Lemma tool_send_drops_attachments_and_tags_witness :
  rich_call !! "attachments" <> None /\
  exists payload : obj,
    net (snd (snd (execute_manifest provider_ok "resend_send_email" rich_call
                     (fst after_init, snd after_init))))
    = net (snd after_init) ++ [(client (gateway_of keyed_cfg), payload)] /\
    payload !! "attachments" = Some VUndefined /\
    payload !! "tags" = Some VUndefined.
Proof.
  split; [vm_compute; discriminate|].
  destruct (tool_send_drops_attachments_and_tags provider_ok rich_call (fst after_init)
              (snd after_init) (gateway_of keyed_cfg))
    as (payload & Hn & _ & _ & _ & _ & _ & _ & _ & _ & Ha & Ht).
  - vm_compute. reflexivity.
  - vm_compute. reflexivity.
  - vm_compute. reflexivity.
  - exists payload. split; [exact Hn|]. split; [exact Ha|exact Ht].
Defined.

(** X19. A send through the tool [resend_send_template_email], on a
    configured client and with a [templateId], makes one request whose
    [template] is the [templateId], whose [data] is the [templateData] of the
    parameters, or the empty object when that is missing or falsy, and whose
    [tags] are undefined whatever the parameters hold. *)
Theorem tool_template_send_payload P params p w c :
  pclient p = Some c ->
  truthy (get (config c) "apiKey") = true ->
  truthy (get params "templateId") = true ->
  exists payload : obj,
    net (snd (snd (execute_manifest P "resend_send_template_email" params (p, w))))
    = net w ++ [(client c, payload)] /\
    payload !! "template" = Some (get params "templateId") /\
    payload !! "data"
    = Some (if truthy (get params "templateData") then get params "templateData"
            else VObject []) /\
    payload !! "to" = Some (get params "to") /\
    payload !! "cc" = Some (get params "cc") /\
    payload !! "bcc" = Some (get params "bcc") /\
    payload !! "tags" = Some VUndefined /\
    payload !! "subject" = None.
Proof.
  intros Hc K T. exists (template_payload c (template_options params)).
  split.
  - destruct (execute_manifest_methods P params p w c Hc) as [_ (_ & Hn & _)].
    rewrite Hn, sendTemplateEmail_net, K.
    replace (get (template_options params) "templateId") with (get params "templateId")
      by (vm_compute; reflexivity).
    rewrite T. reflexivity.
  - repeat split; vm_compute; reflexivity.
Qed.

Lemma tool_template_send_payload_witness :
  exists payload : obj,
    net (snd (snd (execute_manifest provider_ok "resend_send_template_email"
                     template_call_without_data (fst after_init, snd after_init))))
    = net (snd after_init) ++ [(client (gateway_of keyed_cfg), payload)] /\
    payload !! "data" = Some (VObject []).
Proof.
  destruct (tool_template_send_payload provider_ok template_call_without_data
              (fst after_init) (snd after_init) (gateway_of keyed_cfg))
    as (payload & Hn & _ & Hd & _).
  - vm_compute. reflexivity.
  - vm_compute. reflexivity.
  - vm_compute. reflexivity.
  - exists payload. split; [exact Hn|exact Hd].
Defined.

Lemma substring_all s : String.substring 0 (String.length s) s = s.
Proof. induction s as [|a s IH]; simpl; [reflexivity|]. rewrite IH. reflexivity. Qed.

(** The name of a manifest without its prefix. *)
Lemma String_replace_prefix m : String_replace "resend_" "" ("resend_" +:+ m) = m.
Proof.
  simpl. change ("" +:+ m) with m.
  replace (String.prefix "" m) with true by (destruct m; reflexivity).
  rewrite Nat.sub_0_r. change ("" +:+ substring 0 (String.length m) m)
    with (substring 0 (String.length m) m).
  apply substring_all.
Qed.

(** X17. The closure of a manifest named "resend_" followed by [m] runs the
    method [m]: with the client present and [m] neither "send_email" nor
    "send_template_email" it fails with "Unknown method: " and [m], logs the
    failure and makes no request; the two manifests of [getManifests] never
    take that branch. *)
Theorem unknown_method_fails P m params p w c :
  pclient p = Some c ->
  m <> "send_email" ->
  m <> "send_template_email" ->
  execute_manifest P ("resend_" +:+ m) params (p, w)
  = (Throw (Err "Error" ("Unknown method: " +:+ m)),
     (p, {| net := net w;
            log := log w ++ [{| level := LError;
                                text := "Error executing tool " +:+ ("resend_" +:+ m) +:+ ":";
                                detail := Some (Err "Error" ("Unknown method: " +:+ m)) |}] |})) /\
  Forall (fun mf => let n := String_replace "resend_" "" (manifest_name mf) in
                    n = "send_email" \/ n = "send_template_email") getManifests.
Proof.
  intros Hc H1 H2. split.
  - rewrite (execute_manifest_eq P _ params p w c Hc). cbv zeta.
    rewrite String_replace_prefix.
    destruct (String.eqb_spec m "send_email"); [contradiction|].
    destruct (String.eqb_spec m "send_template_email"); [contradiction|].
    reflexivity.
  - constructor; [left; reflexivity|]. constructor; [right; reflexivity|constructor].
Qed.

Lemma unknown_method_fails_witness :
  fst (execute_manifest provider_ok "resend_send_sms" hello_call
         (fst after_init, snd after_init))
  = Throw (Err "Error" "Unknown method: send_sms").
Proof.
  destruct (unknown_method_fails provider_ok "send_sms" hello_call (fst after_init)
              (snd after_init) (gateway_of keyed_cfg)) as [H _].
  - vm_compute. reflexivity.
  - discriminate.
  - discriminate.
  - change ("resend_" +:+ "send_sms") with "resend_send_sms" in H. rewrite H. reflexivity.
Defined.

(** *** The requests a plugin makes *)

Lemma sendEmail_net P c (options : obj) w :
  net (snd (sendEmail P c options w))
  = net w ++ (if truthy (get (config c) "apiKey")
                 && (truthy (get options "html") || truthy (get options "text"))
              then [(client c, formatEmailOptions c options)] else []).
Proof.
  destruct (sendEmail_cases P c options w) as [[K H]|[(K & Hc & H)|(K & Hc & H)]];
    rewrite H, K, ?Hc; simpl; rewrite ?app_nil_r; try reflexivity.
  destruct (emails_send P (client c) (formatEmailOptions c options)) as [r|e|];
    [destruct (usable r)|..]; reflexivity.
Qed.

Lemma adds_nothing p w w' : net w' = net w -> adds_request p w w'.
Proof.
  intros H. exists []. rewrite app_nil_r. split; [exact H|]. split; [simpl; lia|constructor].
Qed.

Lemma adds_guarded p w w' c (b : bool) payload :
  pclient p = Some c ->
  net w' = net w ++ (if truthy (get (config c) "apiKey") && b then [(client c, payload)] else []) ->
  adds_request p w w'.
Proof.
  intros Hc H. destruct (truthy (get (config c) "apiKey")) eqn:K; simpl in H.
  - destruct b.
    + exists [(client c, payload)]. split; [exact H|]. split; [simpl; lia|].
      constructor; [|constructor]. exists c. auto.
    + apply adds_nothing. rewrite H, app_nil_r. reflexivity.
  - apply adds_nothing. rewrite H, app_nil_r. reflexivity.
Qed.

Lemma plugin_sendEmail_adds P params p w :
  adds_request p w (snd (snd (plugin_sendEmail P params (p, w)))).
Proof.
  destruct (pclient p) as [c|] eqn:Hc.
  - rewrite (plugin_sendEmail_eq P params p w c Hc).
    apply (adds_guarded p w _ c
             (truthy (get (email_options params) "html")
              || truthy (get (email_options params) "text"))
             (formatEmailOptions c (email_options params)) Hc).
    rewrite <- (sendEmail_net P).
    destruct (sendEmail P c (email_options params) w) as [[r|e|] w']; reflexivity.
  - apply adds_nothing. unfold plugin_sendEmail. rewrite bind_this, Hc. reflexivity.
Qed.

Lemma plugin_sendTemplateEmail_adds P params p w :
  adds_request p w (snd (snd (plugin_sendTemplateEmail P params (p, w)))).
Proof.
  destruct (pclient p) as [c|] eqn:Hc.
  - rewrite (plugin_sendTemplateEmail_eq P params p w c Hc).
    apply (adds_guarded p w _ c (truthy (get (template_options params) "templateId"))
             (template_payload c (template_options params)) Hc).
    rewrite <- (sendTemplateEmail_net P).
    destruct (sendTemplateEmail P c (template_options params) w) as [[r|e|] w']; reflexivity.
  - apply adds_nothing. unfold plugin_sendTemplateEmail. rewrite bind_this, Hc. reflexivity.
Qed.

Lemma execute_manifest_adds P manifest params p w :
  adds_request p w (snd (snd (execute_manifest P manifest params (p, w)))).
Proof.
  destruct (pclient p) as [c|] eqn:Hc.
  - rewrite (execute_manifest_eq P manifest params p w c Hc). cbv zeta.
    match goal with
    | |- context [(if ?a then ?x else if ?b then ?y else ?z) (p, w)] =>
        assert (A : adds_request p w (snd (snd ((if a then x else if b then y else z) (p, w)))));
        [|destruct ((if a then x else if b then y else z) (p, w)) as [[r|[n m|v]|] [p' w']];
          exact A]
    end.
    destruct (String.eqb _ "send_email"); [apply plugin_sendEmail_adds|].
    destruct (String.eqb _ "send_template_email"); [apply plugin_sendTemplateEmail_adds|].
    apply adds_nothing. reflexivity.
  - apply adds_nothing. unfold execute_manifest. rewrite bind_this, Hc. reflexivity.
Qed.

Lemma run_adds P o p w : adds_request p w (snd (run P o (p, w))).
Proof.
  destruct o; simpl.
  - apply adds_nothing. destruct (init_outcome P p w) as (w' & E & Hn).
    cbv zeta in E. rewrite E. exact Hn.
  - apply execute_manifest_adds.
  - apply plugin_sendEmail_adds.
  - apply plugin_sendTemplateEmail_adds.
  - apply adds_nothing. reflexivity.
  - apply adds_nothing. reflexivity.
  - apply adds_nothing. reflexivity.
Qed.

Lemma reachable_client_keyed P s : reachable P s -> client_keyed (fst s).
Proof.
  induction 1 as [env cfg s0|o [p w] _ IH].
  - rewrite new_ResendPlugin_eq. intros c Hc. discriminate.
  - simpl in IH. rewrite run_plugin. destruct o; try exact IH.
    rewrite init_plugin. destruct (Resend_new P _); [exact IH|].
    cbv zeta. destruct (truthy _); intros c Hc; inversion Hc; subst c; simpl;
      rewrite get_default_config_apiKey; reflexivity.
Qed.

(** X18. Every call on a reachable plugin keeps the requests already made
    and adds at most one; a request it adds is made with the plugin's
    client, whose key is the [apiKey] of the plugin's configuration and is
    truthy: no request goes out without a credential. *)
Theorem requests_carry_the_credential P s o :
  reachable P s ->
  exists new,
    net (snd (run P o s)) = net (snd s) ++ new /\
    (length new <= 1)%nat /\
    Forall (fun rq => key (fst rq) = get (resendConfig (fst s)) "apiKey" /\
                      truthy (key (fst rq)) = true) new.
Proof.
  intros Hr. destruct s as [p w].
  destruct (run_adds P o p w) as (new & Hn & Hl & Hf).
  exists new. split; [exact Hn|]. split; [exact Hl|].
  eapply Forall_impl; [exact Hf|]. intros rq (c & Hc & -> & K). simpl.
  rewrite (reachable_client_keyed P (p, w) Hr c Hc).
  split; [|exact K].
  rewrite (reachable_client_of_config P (p, w) Hr c Hc). simpl.
  apply get_default_config_apiKey.
Qed.

Lemma requests_carry_the_credential_witness :
  exists new,
    net (snd (run provider_ok (CallExecute "resend_send_email" hello_call) after_init))
    = net (snd after_init) ++ new /\
    Forall (fun rq => key (fst rq) = VString "re_123") new.
Proof.
  destruct (requests_carry_the_credential provider_ok after_init
              (CallExecute "resend_send_email" hello_call)) as (new & Hn & _ & Hf).
  - apply reach_run. apply reach_new.
  - exists new. split; [exact Hn|].
    eapply Forall_impl; [exact Hf|]. intros rq [H _]. rewrite H. vm_compute. reflexivity.
Defined.

(** *** The report of the interface *)

Lemma debugPluginInterface_loop_spec ts p w :
  exists entries,
    debugPluginInterface_loop ts (p, w)
    = (Ok tt, (p, {| net := net w; log := log w ++ entries |})) /\
    length entries = (2 * length ts)%nat /\
    Forall (fun e => level e = LInfo) entries.
Proof.
  revert w. induction ts as [|t ts IH]; intros w.
  - exists []. simpl. rewrite app_nil_r. destruct w. repeat split. constructor.
  - simpl. unfold bind at 1, liftW at 1. cbn [logger fst snd].
    unfold bind at 1, liftW at 1. cbn [logger fst snd net log].
    match goal with
    | |- context [debugPluginInterface_loop ts (p, ?v)] => destruct (IH v) as (es & E & L & F)
    end.
    rewrite E. cbn [net log]. eexists. rewrite <- !app_assoc. split; [reflexivity|].
    split; [simpl; rewrite L; lia|]. repeat constructor. exact F.
Qed.

(** X20. [debugPluginInterface] returns true and changes nothing but the
    log: it adds two lines and two more for every registered tool, all at
    level info, makes no request and leaves the registry and the client as
    they are. *)
Theorem debugPluginInterface_only_logs p w :
  exists entries,
    debugPluginInterface (p, w)
    = (Ok true, (p, {| net := net w; log := log w ++ entries |})) /\
    length entries = (2 + 2 * length (tools p))%nat /\
    Forall (fun e => level e = LInfo) entries.
Proof.
  unfold debugPluginInterface, getTools.
  unfold bind at 1, liftW at 1. cbn [logger fst snd].
  unfold bind at 1. unfold bind at 1, this at 1, ret at 1. cbn [fst snd].
  unfold bind at 1, liftW at 1. cbn [logger fst snd net log].
  unfold bind at 1. unfold bind at 1, this at 1, ret at 1. cbn [fst snd].
  unfold bind at 1.
  match goal with
  | |- context [debugPluginInterface_loop ?ts (p, ?v)] =>
      destruct (debugPluginInterface_loop_spec ts p v) as (es & E & L & F)
  end.
  rewrite E. cbn [net log ret]. eexists. rewrite <- !app_assoc. split; [reflexivity|].
  split.
  - simpl. rewrite L. unfold Map_values. rewrite length_map. lia.
  - repeat constructor. exact F.
Qed.

(** *** Edges of the conversion *)

Lemma convertParameters_loop_null {S} params entries acc (s : S) :
  nullish params = false ->
  Exists (fun e => nullish (snd e) = true) entries ->
  exists m, convertParameters_loop params entries acc s = (Throw (Err "TypeError" m), s).
Proof.
  intros Hp. revert acc. induction entries as [|[n prop] rest IH]; intros acc Hex.
  - inversion Hex.
  - simpl. unfold bind at 1, read at 1.
    destruct (nullish prop) eqn:N.
    + unfold throw. eauto.
    + apply Exists_cons in Hex as [Hex|Hex]; [simpl in Hex; congruence|].
      unfold ret at 1. unfold bind at 1, read at 1. rewrite N. unfold ret at 1.
      unfold bind at 1, read at 1. rewrite Hp. unfold ret at 1.
      unfold bind at 1.
      destruct (nullish (member params "required")).
      * unfold ret at 1. apply IH, Hex.
      * unfold includes.
        destruct (member params "required"); unfold ret, throw;
          try (eexists; reflexivity); apply IH, Hex.
Qed.

(** X21. Without parameters, or without [properties], the conversion
    returns the empty list. When a property of the map is null or undefined
    the conversion throws a TypeError, and no descriptor is returned, not
    even those of the properties before it. Either way the state is left as
    it was. *)
Theorem convertParameters_edges {S} (params : value) (s : S) :
  (truthy params = false \/ truthy (member params "properties") = false ->
   convertParameters params s = (Ok [], s)) /\
  (forall props,
      truthy params = true ->
      member params "properties" = VObject props ->
      Exists (fun e => nullish (snd e) = true) props ->
      exists m, convertParameters params s = (Throw (Err "TypeError" m), s)).
Proof.
  split.
  - unfold convertParameters. intros [H|H]; rewrite H; [|rewrite andb_false_r]; reflexivity.
  - intros props Hp Hprops Hex. unfold convertParameters. rewrite Hp, Hprops. simpl.
    apply convertParameters_loop_null; [apply truthy_not_nullish, Hp|exact Hex].
Qed.

Lemma convertParameters_edges_witness :
  exists m,
    convertParameters
      (VObject [("properties",
                 VObject [("to", VObject [("type", VString "string")]); ("cc", VNull)])])
      world0
    = (Throw (Err "TypeError" m), world0).
Proof.
  destruct (convertParameters_edges
              (VObject [("properties",
                         VObject [("to", VObject [("type", VString "string")]); ("cc", VNull)])])
              world0) as [_ H].
  apply (H [("to", VObject [("type", VString "string")]); ("cc", VNull)]).
  - reflexivity.
  - reflexivity.
  - apply Exists_cons_tl, Exists_cons_hd. reflexivity.
Defined.

(** The SDK's refusal of a missing key reaches the caller of the
    constructor as it is. *)
Lemma new_ResendClient_outcome_witness :
  fst (new_ResendClient provider_strict ∅ world0)
  = Throw (Err "Error" "Missing API key. Pass it to the constructor.") /\
  log (snd (new_ResendClient provider_strict ∅ world0)) = [warn_entry].
Proof.
  destruct (new_ResendClient_outcome provider_strict ∅ world0) as (H & _ & L & _).
  split; [exact H|exact L].
Defined.

(** ** The life cycle over every call *)

Lemma debugPluginInterface_stable : stable fst debugPluginInterface.
Proof.
  unfold debugPluginInterface, getTools.
  repeat stable_step; apply debugPluginInterface_loop_stable.
Qed.

(** No call but [init] assigns the client. *)
Lemma perform_client P c s :
  c <> Method CallInit -> pclient (fst (perform P c s)) = pclient (fst s).
Proof.
  intros Hc. destruct c as [o| | | | |]; simpl; try reflexivity.
  - assert (Ho : o <> CallInit) by congruence.
    pose proof (run_core P o s Ho) as E. unfold core in E. congruence.
  - rewrite (debugPluginInterface_stable s). reflexivity.
Qed.

Lemma perform_client_of_config P c s :
  host_write c = false ->
  client_of_config (fst s) -> client_of_config (fst (perform P c s)).
Proof.
  intros Hw H. destruct c as [o| | | | |]; simpl in *; try exact H; try discriminate.
  - destruct o; try (eapply client_of_config_core; [apply run_core; discriminate|exact H]).
    destruct s as [p w]. simpl. apply init_client_of_config. exact H.
  - rewrite (debugPluginInterface_stable s). exact H.
Qed.

Lemma init_Initialized P p w :
  Initialized p ->
  truthy (get (resendConfig p) "apiKey") = true \/
  Resend_new P (get (resendConfig p) "apiKey") <> None ->
  Initialized (fst (snd (init P (p, w)))).
Proof.
  intros Hi Hk. rewrite init_plugin.
  destruct (Resend_new P (get (resendConfig p) "apiKey")) as [e|]; [exact Hi|].
  destruct Hk as [K|K]; [|contradiction]. cbv zeta. rewrite K.
  eexists. split; [reflexivity|]. simpl. rewrite get_default_config_apiKey. exact K.
Qed.

Lemma perform_Initialized P c s :
  host_write c = false ->
  client_of_config (fst s) -> Initialized (fst s) -> Initialized (fst (perform P c s)).
Proof.
  intros Hw Hc Hi.
  assert (Other : c <> Method CallInit -> Initialized (fst (perform P c s))).
  { intros Hne. destruct Hi as (c0 & Hp & K). exists c0. split; [|exact K].
    rewrite (perform_client P c s Hne). exact Hp. }
  destruct c as [[]| | | | |]; try (apply Other; discriminate).
  destruct s as [p w]. simpl in *. apply init_Initialized; [exact Hi|]. left.
  destruct Hi as (c & Hp & K). rewrite (Hc c Hp), get_default_config_apiKey in K. exact K.
Qed.

(** C6, as the code has it. While the client is absent (no [init] has
    constructed one) every execution of a tool, and either send method of the
    plugin, fails with the "not initialized" error and changes nothing. An
    [init] whose client is constructed but not configured fails, and the
    client stays assigned, also over a configured one: the plugin is then
    not Initialized, and an execution fails with the gateway's configuration
    error, without an outbound request. No call but [init] assigns the
    client: every other method, [debugPluginInterface] included, and a write
    of the host to the configuration object keep an Initialized plugin
    Initialized; so does [init] while the configuration holds a truthy
    credential, hence every sequence of calls in which the host leaves the
    configuration object alone. *)
Theorem lifecycle_guard P :
  (forall manifest params p w,
      pclient p = None ->
      execute_manifest P manifest params (p, w)
      = (Throw (Err "Error" not_initialized_msg), (p, w)) /\
      plugin_sendEmail P params (p, w) = (Throw (Err "Error" not_initialized_msg), (p, w)) /\
      plugin_sendTemplateEmail P params (p, w)
      = (Throw (Err "Error" not_initialized_msg), (p, w))) /\
  (forall params p w c,
      pclient p = Some c ->
      truthy (get (config c) "apiKey") = false ->
      (fst (execute_manifest P "resend_send_email" params (p, w))
       = Throw (Err "Error" ("Failed to send email: Failed to send email: "
                             +:+ not_configured_msg)) /\
       net (snd (snd (execute_manifest P "resend_send_email" params (p, w)))) = net w) /\
      (fst (execute_manifest P "resend_send_template_email" params (p, w))
       = Throw (Err "Error" ("Failed to send template email: Failed to send template email: "
                             +:+ not_configured_msg)) /\
       net (snd (snd (execute_manifest P "resend_send_template_email" params (p, w)))) = net w)) /\
  (forall p w,
      Resend_new P (get (resendConfig p) "apiKey") = None ->
      truthy (get (resendConfig p) "apiKey") = false ->
      fst (init P (p, w))
      = Throw (Err "Error" ("Resend plugin initialization failed: Error: " +:+ not_verified_msg)) /\
      pclient (fst (snd (init P (p, w))))
      = Some {| client := {| key := get (resendConfig p) "apiKey" |};
                config := resendConfig p ∪ default_config |} /\
      ~ Initialized (fst (snd (init P (p, w))))) /\
  (forall c s,
      c <> Method CallInit ->
      pclient (fst (perform P c s)) = pclient (fst s) /\
      (Initialized (fst s) -> Initialized (fst (perform P c s)))) /\
  (forall p w,
      Initialized p ->
      truthy (get (resendConfig p) "apiKey") = true \/
      Resend_new P (get (resendConfig p) "apiKey") <> None ->
      Initialized (fst (perform P (Method CallInit) (p, w)))) /\
  (forall env cfg s0, client_of_config (fst (snd (new_ResendPlugin env cfg s0)))) /\
  (forall s calls,
      client_of_config (fst s) ->
      Initialized (fst s) ->
      forallb (fun c => negb (host_write c)) calls = true ->
      Initialized (fst (fold_left (fun s c => perform P c s) calls s))).
Proof.
  split; [|split; [|split; [|split; [|split; [|split]]]]].
  - intros manifest params p w Hc. repeat split.
    + unfold execute_manifest. rewrite bind_this, Hc. reflexivity.
    + unfold plugin_sendEmail. rewrite bind_this, Hc. reflexivity.
    + unfold plugin_sendTemplateEmail. rewrite bind_this, Hc. reflexivity.
  - intros params p w c Hc K. split.
    + unfold execute_manifest. rewrite bind_this, Hc. unfold throw_if.
      change (String_replace "resend_" "" "resend_send_email") with "send_email".
      cbn -[plugin_sendEmail]. unfold try_catch.
      rewrite (plugin_sendEmail_unconfigured P params p w c Hc K).
      split; reflexivity.
    + unfold execute_manifest. rewrite bind_this, Hc. unfold throw_if.
      change (String_replace "resend_" "" "resend_send_template_email")
        with "send_template_email".
      cbn -[plugin_sendTemplateEmail]. unfold try_catch.
      rewrite (plugin_sendTemplateEmail_unconfigured P params p w c Hc K).
      split; reflexivity.
  - intros p w N K. destruct (init_outcome P p w) as (w' & E & _). cbv zeta in E.
    rewrite N, K in E. rewrite E. simpl. split; [reflexivity|]. split; [reflexivity|].
    intros (c & Hc & Kc). inversion Hc; subst c. simpl in Kc.
    rewrite get_default_config_apiKey in Kc. congruence.
  - intros c s Hne. split; [apply perform_client, Hne|].
    intros (c0 & Hp & K). exists c0. split; [|exact K].
    rewrite (perform_client P c s Hne). exact Hp.
  - intros p w Hi Hk. simpl. apply init_Initialized; assumption.
  - intros env cfg s0. rewrite new_ResendPlugin_eq. intros c Hc. discriminate.
  - intros s calls. revert s. induction calls as [|c calls IH]; intros s Hc Hi Hw; simpl.
    + exact Hi.
    + simpl in Hw. apply andb_true_iff in Hw as [Hw1 Hw].
      apply negb_true_iff in Hw1.
      apply IH; [apply perform_client_of_config|apply perform_Initialized|]; assumption.
Qed.

Lemma lifecycle_guard_witness :
  Initialized (fst after_init) /\
  Initialized
    (fst (fold_left (fun s c => perform provider_ok c s)
            [ Method (CallRemoveTool "resend_send_email"); CallDebugPluginInterface;
              Method CallInit; CallGetToolByFullName "resend_send_email";
              Method (CallExecute "resend_send_email" hello_call) ]
            after_init)) /\
  ~ Initialized (fst (snd (init provider_ok (fst (constructed ∅), snd (constructed ∅))))).
Proof.
  assert (I : Initialized (fst after_init)).
  { exists (gateway_of keyed_cfg). split; vm_compute; reflexivity. }
  destruct (lifecycle_guard provider_ok) as (_ & _ & F & _ & _ & _ & H).
  split; [exact I|]. split.
  - apply H; [|exact I|reflexivity].
    intros c Hc. vm_compute in Hc. injection Hc as <-. vm_compute. reflexivity.
  - apply F; vm_compute; reflexivity.
Defined.

(** After the host has removed the credential from the configuration object
    it passed to the constructor, a second [init] takes an Initialized plugin
    out of Initialized. *)
Lemma reinit_without_key_leaves_Initialized :
  Initialized (fst after_init) /\ ~ Initialized (fst after_reinit_without_key).
Proof.
  split.
  - exists (gateway_of keyed_cfg). split; vm_compute; reflexivity.
  - intros (c & Hc & K). vm_compute in Hc. injection Hc as <-.
    vm_compute in K. discriminate.
Qed.
